(** * Sprint burndown chart generator: a shallow embedding of [chart.py]

    The development follows the single class [GitHubProjectsBurndownChart]:
    the item normaliser ([_extract_story_points], [_get_item_sprint],
    [process_project_data]), the burndown calculator
    ([calculate_burndown_data]), the two renderers and [run].

    Modelling conventions.
    - Python [str] values are [string]s of ASCII characters; [str.lower] only
      touches the letters A-Z.
    - Python floats are idealised as the rationals [Q]: rounding, overflow and
      the special values inf and nan are outside the model.
    - A [datetime] is its wall-clock microsecond count since 0001-01-01T00:00;
      the upper bound of year 9999 is not modelled.
    - The GraphQL response is typed after the query of [_build_query]: a key
      that is absent and a key that holds [null] are both [None].
    - Console output ([print]) is not modelled; the calls by which the
      renderers write a file or open a window are recorded as a list of
      [Event]s, each with the path it is given.  What the plotting library
      does with that path (matplotlib appends a default extension to a path
      that has none) and its own errors are outside the model.
    - The two sprint dates are taken to be of the same kind (both naive or
      both with an offset), so that they can be compared and subtracted. *)

From Stdlib Require Import ZArith QArith List String Ascii Bool Lia Lqa.
Import ListNotations.

Local Open Scope string_scope.
Local Open Scope list_scope.

(** ** Python runtime helpers *)

Module Py.

(** Truthiness of an optional string: [None] and the empty string are
    falsy. *)
Definition truthy (o : option string) : bool :=
  match o with
  | Some (String _ _) => true
  | _ => false
  end.

(** [o or ""] for an optional string. *)
Definition or_empty (o : option string) : string :=
  match o with
  | Some s => s
  | None => ""
  end.

Definition is_upper (c : ascii) : bool :=
  (65 <=? nat_of_ascii c)%nat && (nat_of_ascii c <=? 90)%nat.

Definition lower_char (c : ascii) : ascii :=
  if is_upper c then ascii_of_nat (nat_of_ascii c + 32) else c.

(** [s.lower()] *)
Fixpoint lower (s : string) : string :=
  match s with
  | EmptyString => EmptyString
  | String c s' => String (lower_char c) (lower s')
  end.

(** [needle in hay] on strings: substring test. *)
Fixpoint contains (needle hay : string) : bool :=
  String.prefix needle hay ||
  match hay with
  | EmptyString => false
  | String _ hay' => contains needle hay'
  end.

(** [s.replace(old, new)] for a non-empty [old] (both call sites pass a
    literal): non-overlapping occurrences, leftmost first.  [skip] counts
    the characters of an occurrence that are still to be dropped. *)
Fixpoint replace_from (old new : string) (skip : nat) (s : string) : string :=
  match s with
  | EmptyString => EmptyString
  | String c s' =>
      match skip with
      | S k => replace_from old new k s'
      | O =>
          if String.prefix old s
          then new ++ replace_from old new (String.length old - 1) s'
          else String c (replace_from old new 0 s')
      end
  end.

Definition replace (old new s : string) : string := replace_from old new 0 s.

Definition is_digit (c : ascii) : bool :=
  (48 <=? nat_of_ascii c)%nat && (nat_of_ascii c <=? 57)%nat.

Definition digit_val (c : ascii) : Z := Z.of_nat (nat_of_ascii c) - 48.

(** The longest prefix of digits, and what follows it. *)
Fixpoint span_digits (s : string) : string * string :=
  match s with
  | EmptyString => (EmptyString, EmptyString)
  | String c s' =>
      if is_digit c
      then let (ds, rest) := span_digits s' in (String c ds, rest)
      else (EmptyString, s)
  end.

(** The regular expression [(\d+(\.\d+)?)] matched at the start of [s],
    which begins with a digit: the digit run, and the fraction when a dot
    and at least one digit follow.  The result is the integer digits and
    the fraction digits of group 1. *)
Definition match_decimal (s : string) : string * string :=
  let (ip, rest) := span_digits s in
  match rest with
  | String "."%char rest' => (ip, fst (span_digits rest'))
  | _ => (ip, EmptyString)
  end.

(** [re.search(r"(\d+(\.\d+)?)", s)]: the leftmost match, [None] when [s]
    has no digit. *)
Fixpoint re_search_decimal (s : string) : option (string * string) :=
  match s with
  | EmptyString => None
  | String c s' =>
      if is_digit c then Some (match_decimal s) else re_search_decimal s'
  end.

(** The text of group 1 of a match. *)
Definition group1 (m : string * string) : string :=
  match snd m with
  | EmptyString => fst m
  | fp => fst m ++ "." ++ fp
  end.

(** Value of a run of decimal digits, most significant first. *)
Fixpoint digits_val (acc : Z) (s : string) : Z :=
  match s with
  | EmptyString => acc
  | String c s' => digits_val (10 * acc + digit_val c) s'
  end.

(** [float(m.group(1))] for a match of the pattern above: the text is a
    plain decimal literal, so the conversion cannot fail and yields the
    decimal value. *)
Definition float_of_match (m : string * string) : Q :=
  let (ip, fp) := m in
  inject_Z (digits_val 0 ip)
  + Qmake (digits_val 0 fp) (Pos.pow 10 (Pos.of_nat (String.length fp))).

(** [max(0.0, x)]: the second argument wins only when it is greater. *)
Definition max0 (x : Q) : Q := if Qle_bool x 0 then 0 else x.

End Py.

(** ** Exceptions *)

Inductive exn : Type :=
| ValueError
| ZeroDivisionError
| RuntimeError (msg : string).

(** Outcome of a computation: a value, a raised exception, or a loop that
    was given too little fuel. *)
Inductive exc (A : Type) : Type :=
| Done (a : A)
| Raise (e : exn)
| OutOfFuel.

Arguments Done {A} a.
Arguments Raise {A} e.
Arguments OutOfFuel {A}.

Definition bind {A B : Type} (m : exc A) (k : A -> exc B) : exc B :=
  match m with
  | Done a => k a
  | Raise e => Raise e
  | OutOfFuel => OutOfFuel
  end.

(** [try: m except Exception: h] *)
Definition try_except {A : Type} (m : exc A) (h : exc A) : exc A :=
  match m with
  | Raise _ => h
  | other => other
  end.

Declare Scope exc_scope.
Delimit Scope exc_scope with exc.
Notation "x <- m ;; k" := (bind m (fun x => k))
  (at level 61, m at next level, right associativity) : exc_scope.

(** A builtin that signals failure by raising [ValueError]. *)
Definition or_raise {A : Type} (o : option A) : exc A :=
  match o with
  | Some a => Done a
  | None => Raise ValueError
  end.

(** [a / b] with a float numerator and an [int] denominator. *)
Definition py_div (a : Q) (b : Z) : exc Q :=
  if (b =? 0)%Z then Raise ZeroDivisionError else Done (a / inject_Z b).

(** ** Dates and times *)

Record datetime : Type := mk_datetime { ticks : Z }.

Definition us_per_day : Z := 86400000000.

(** [a <= b] *)
Definition dt_leb (a b : datetime) : bool := (ticks a <=? ticks b)%Z.

(** [(a - b).days]: a [timedelta] is normalised with its seconds and
    microseconds non-negative, so [days] is the floor of the quotient. *)
Definition days_between (a b : datetime) : Z := ((ticks a - ticks b) / us_per_day)%Z.

(** [d + timedelta(days=n)] *)
Definition add_days (d : datetime) (n : Z) : datetime :=
  mk_datetime (ticks d + n * us_per_day)%Z.

(** [d.date()], as a day number. *)
Definition date (d : datetime) : Z := (ticks d / us_per_day)%Z.

(** Calendar construction, after [_ymd2ord] of the [datetime] module. *)
Definition is_leap (y : Z) : bool :=
  ((y mod 4 =? 0) && (negb (y mod 100 =? 0) || (y mod 400 =? 0)))%Z.

Definition days_before_year (y : Z) : Z :=
  let y1 := (y - 1)%Z in (y1 * 365 + y1 / 4 - y1 / 100 + y1 / 400)%Z.

Definition days_in_month (y m : Z) : Z :=
  if (m =? 2)%Z then (if is_leap y then 29 else 28)%Z
  else if ((m =? 4) || (m =? 6) || (m =? 9) || (m =? 11))%Z then 30%Z
  else 31%Z.

Fixpoint days_before_month (y : Z) (m : nat) : Z :=
  match m with
  | O => 0%Z
  | S O => 0%Z
  | S m' => (days_before_month y m' + days_in_month y (Z.of_nat m'))%Z
  end.

Definition ymd2ord (y m d : Z) : Z :=
  (days_before_year y + days_before_month y (Z.to_nat m) + d)%Z.

(** [datetime(y, m, d, hh, mi, ss)] *)
Definition datetime_of (y m d hh mi ss : Z) : datetime :=
  mk_datetime (((((ymd2ord y m d - 1) * 24 + hh) * 60 + mi) * 60 + ss) * 1000000)%Z.

(** ** Data model *)

(** A node of [fieldValues]: [fv_field] is [v["field"]["name"]]; [fv_name],
    [fv_text] and [fv_number] are the payload keys of the three fragments. *)
Record FieldValue : Type := mk_field_value {
  fv_field : option string;
  fv_name : option string;
  fv_text : option string;
  fv_number : option Q
}.

(** The [content] union (Issue or PullRequest); a pull request has no
    labels. *)
Record Content : Type := mk_content {
  c_title : option string;
  c_state : option string;
  createdAt : option string;
  closedAt : option string;
  labels : list string
}.

(** A project item; [content] is [None] when the payload is absent, null or
    empty. *)
Record RawItem : Type := mk_raw_item {
  content : option Content;
  fieldValues : list FieldValue
}.

Record Project : Type := mk_project {
  p_title : option string;
  p_items : list RawItem
}.

(** The decoded response body: [r_organization] and [r_repository] are
    [raw["data"][...]["projectV2"]]. *)
Record RawData : Type := mk_raw_data {
  r_organization : option Project;
  r_repository : option Project
}.

Record Response : Type := mk_response { r_data : option RawData }.

Record Config : Type := mk_config {
  project_type : option string;
  sprint_start : string;
  sprint_end : string;
  sprint_label : option string;
  sprint_field : option string;
  points_field : option string;
  planned_points : option Q;
  save_path : option string;
  chart_type : option string
}.

(** A normalised item, the [entry] dict of [process_project_data]. *)
Record Entry : Type := mk_entry {
  title : string;
  story_points : Q;
  created_at : option datetime;
  closed_at : option datetime;
  state : option string
}.

Record ProjectData : Type := mk_project_data {
  project_name : option string;
  items : list Entry;
  total_points : Q;
  pd_sprint_start : datetime;
  pd_sprint_end : datetime
}.

Record Burndown : Type := mk_burndown {
  dates : list datetime;
  remaining : list Q;
  ideal : list Q;
  bd_total_points : Q
}.

(** What [_get_item_sprint] returns: a string from a field value, or the
    list of label names. *)
Inductive SprintTag : Type :=
| TagStr (s : string)
| TagLabels (l : list string).

(** The calls of the renderers that write a file or open a window:
    [plt.savefig(path, ...)], [plt.show()], [fig.write_html(path)],
    [fig.write_image(path)] and [fig.show()]. *)
Inductive Event : Type :=
| Savefig (path : string)
| PltShow
| WriteHtml (path : string)
| WriteImage (path : string)
| FigShow.

(** ** Reference instances of the two parsing builtins

    The class below is parametrised by [float] and [datetime.fromisoformat].
    These instances cover the plain forms (a signed decimal literal; a date,
    optionally with a time of day and the offset +00:00) and are used to run
    the model on concrete inputs. *)

Module Sample.

Definition all_digits (s : string) : bool :=
  negb (String.length s =? 0)%nat
  && (String.length (fst (Py.span_digits s)) =? String.length s)%nat.

Definition unsigned_decimal (s : string) : option Q :=
  match s with
  | EmptyString => None
  | String c _ =>
      if Py.is_digit c
      then let m := Py.match_decimal s in
           if (Py.group1 m =? s)%string then Some (Py.float_of_match m) else None
      else None
  end.

Definition float_plain (s : string) : option Q :=
  match s with
  | String "-"%char s' => option_map Qopp (unsigned_decimal s')
  | String "+"%char s' => unsigned_decimal s'
  | _ => unsigned_decimal s
  end.

Definition number_at (s : string) (start len : nat) : option Z :=
  let t := String.substring start len s in
  if all_digits t && (String.length t =? len)%nat
  then Some (Py.digits_val 0 t) else None.

Definition char_is (s : string) (i : nat) (c : ascii) : bool :=
  match String.get i s with
  | Some c' => Ascii.eqb c c'
  | None => false
  end.

Definition iso_date (s : string) : option Z :=
  match number_at s 0 4, number_at s 5 2, number_at s 8 2 with
  | Some y, Some m, Some d =>
      if char_is s 4 "-" && char_is s 7 "-"
         && (1 <=? y)%Z && (1 <=? m)%Z && (m <=? 12)%Z
         && (1 <=? d)%Z && (d <=? days_in_month y m)%Z
      then Some (ymd2ord y m d) else None
  | _, _, _ => None
  end.

Definition iso_time (s : string) : option Z :=
  match number_at s 11 2, number_at s 14 2, number_at s 17 2 with
  | Some hh, Some mi, Some ss =>
      if char_is s 10 "T" && char_is s 13 ":" && char_is s 16 ":"
         && (hh <? 24)%Z && (mi <? 60)%Z && (ss <? 60)%Z
      then Some ((hh * 60 + mi) * 60 + ss)%Z else None
  | _, _, _ => None
  end.

Definition iso_plain (s : string) : option datetime :=
  let n := String.length s in
  match iso_date s with
  | None => None
  | Some ord =>
      if (n =? 10)%nat then Some (mk_datetime ((ord - 1) * us_per_day)%Z)
      else if (n =? 19)%nat
              || ((n =? 25)%nat && (String.substring 19 6 s =? "+00:00")%string)
      then match iso_time s with
           | Some secs =>
               Some (mk_datetime ((ord - 1) * us_per_day + secs * 1000000)%Z)
           | None => None
           end
      else None
  end.

End Sample.

(** ** The class [GitHubProjectsBurndownChart] *)

Section Chart.

(** [float(s)] on a string, [None] standing for [ValueError]. *)
Variable float_of_text : string -> option Q.

(** [datetime.fromisoformat(s)], [None] standing for [ValueError]. *)
Variable fromisoformat : string -> option datetime.

Local Open Scope exc_scope.

(** *** Item normaliser *)

(** Lines 105-115: the loop over the field values when [points_field_name]
    is set; [Some x] is [return x], [None] is the loop running to its
    end. *)
Fixpoint scan_named_field (points_field_name : string) (fv : list FieldValue)
  : option Q :=
  match fv with
  | [] => None
  | v :: rest =>
      let fname := fv_field v in
      if Py.truthy fname
         && (Py.lower (Py.or_empty fname) =? Py.lower points_field_name)%string
      then
        match fv_number v with
        | Some n => Some n
        | None =>
            if Py.truthy (fv_text v)
            then match float_of_text (Py.or_empty (fv_text v)) with
                 | Some x => Some x
                 | None => scan_named_field points_field_name rest
                 end
            else scan_named_field points_field_name rest
        end
      else scan_named_field points_field_name rest
  end.

(** Lines 116-123: the loop over all field values. *)
Fixpoint scan_any_field (fv : list FieldValue) : option Q :=
  match fv with
  | [] => None
  | v :: rest =>
      match fv_number v with
      | Some n => Some n
      | None =>
          if Py.truthy (fv_text v)
          then match float_of_text (Py.or_empty (fv_text v)) with
               | Some x => Some x
               | None => scan_any_field rest
               end
          else scan_any_field rest
      end
  end.

(** Lines 126-131: the loop over the labels. *)
Fixpoint scan_labels (lbls : list string) : option Q :=
  match lbls with
  | [] => None
  | name :: rest =>
      match Py.re_search_decimal name with
      | Some m => Some (Py.float_of_match m)
      | None => scan_labels rest
      end
  end.

(** [content.get("labels", {}).get("nodes", [])] of [item.get("content") or {}] *)
Definition item_labels (item : RawItem) : list string :=
  match content item with
  | Some c => labels c
  | None => []
  end.

Definition _extract_story_points (item : RawItem)
           (points_field_name : option string) : Q :=
  let fv := fieldValues item in
  match (if Py.truthy points_field_name
         then scan_named_field (Py.or_empty points_field_name) fv
         else None) with
  | Some x => x
  | None =>
      match scan_any_field fv with
      | Some x => x
      | None =>
          match scan_labels (item_labels item) with
          | Some x => x
          | None => 1
          end
      end
  end.

(** Lines 137-145: the loop of [_get_item_sprint]. *)
Fixpoint scan_sprint_field (sprint_field_name : option string)
         (fv : list FieldValue) : option string :=
  match fv with
  | [] => None
  | v :: rest =>
      let fname := fv_field v in
      if Py.truthy sprint_field_name && Py.truthy fname
         && (Py.lower (Py.or_empty fname)
             =? Py.lower (Py.or_empty sprint_field_name))%string
      then
        if Py.truthy (fv_name v) then Some (Py.or_empty (fv_name v))
        else if Py.truthy (fv_text v) then Some (Py.or_empty (fv_text v))
        else scan_sprint_field sprint_field_name rest
      else scan_sprint_field sprint_field_name rest
  end.

Definition _get_item_sprint (item : RawItem)
           (sprint_field_name : option string) : SprintTag :=
  match scan_sprint_field sprint_field_name (fieldValues item) with
  | Some s => TagStr s
  | None => TagLabels (item_labels item)
  end.

(** Lines 179-191: the value of [include] for one item. *)
Definition sprint_filter (cfg : Config) (it : RawItem) : bool :=
  let item_sprint := _get_item_sprint it (sprint_field cfg) in
  if Py.truthy (sprint_field cfg) then
    match item_sprint with
    | TagStr s =>
        Py.truthy (sprint_label cfg)
        && Py.contains (Py.lower (Py.or_empty (sprint_label cfg))) (Py.lower s)
    | TagLabels _ => false
    end
  else
    match item_sprint with
    | TagLabels l =>
        if Py.truthy (sprint_label cfg)
        then existsb (fun lbl => (Py.lower (Py.or_empty (sprint_label cfg))
                                  =? Py.lower lbl)%string) l
        else true
    | TagStr _ => false
    end.

(** One side of lines 199-200: [fromisoformat(s.replace("Z", "+00:00")) if s
    else None]. *)
Definition parse_timestamp (s : option string) : exc (option datetime) :=
  if Py.truthy s
  then d <- or_raise (fromisoformat (Py.replace "Z" "+00:00" (Py.or_empty s)));;
       Done (Some d)
  else Done None.

(** Lines 198-203: both timestamps, or neither. *)
Definition parse_timestamps (created closed : option string)
  : exc (option datetime * option datetime) :=
  try_except
    (created_dt <- parse_timestamp created;;
     closed_dt <- parse_timestamp closed;;
     Done (created_dt, closed_dt))
    (Done (None, None)).

(** Lines 175-213: the loop body for one item; [None] is [continue]. *)
Definition normalize_item (cfg : Config) (it : RawItem) : exc (option Entry) :=
  match content it with
  | None => Done None
  | Some c =>
      if negb (sprint_filter cfg it) then Done None
      else
        let sp := _extract_story_points it (points_field cfg) in
        ts <- parse_timestamps (createdAt c) (closedAt c);;
        Done (Some {| title := Py.or_empty (c_title c);
                      story_points := sp;
                      created_at := fst ts;
                      closed_at := snd ts;
                      state := c_state c |})
  end.

(** Lines 174-213: the loop, threading [filtered] and [total_points]. *)
Fixpoint process_items (cfg : Config) (its : list RawItem)
         (filtered : list Entry) (total : Q) : exc (list Entry * Q) :=
  match its with
  | [] => Done (filtered, total)
  | it :: rest =>
      r <- normalize_item cfg it;;
      match r with
      | None => process_items cfg rest filtered total
      | Some entry =>
          process_items cfg rest (filtered ++ [entry])
                        (total + story_points entry)
      end
  end.

(** [cfg.get("project_type", "organization") == "organization"] *)
Definition is_organization (cfg : Config) : bool :=
  match project_type cfg with
  | None => true
  | Some t => (t =? "organization")%string
  end.

Definition process_project_data (cfg : Config) (raw : option Response)
           (sprint_start sprint_end : datetime) : exc (option ProjectData) :=
  match raw with
  | None => Done None
  | Some resp =>
      match r_data resp with
      | None => Done None
      | Some data =>
          let project := if is_organization cfg
                         then r_organization data
                         else r_repository data in
          match project with
          | None => Done None
          | Some proj =>
              r <- process_items cfg (p_items proj) [] 0;;
              Done (Some {| project_name := p_title proj;
                            items := fst r;
                            total_points := snd r;
                            pd_sprint_start := sprint_start;
                            pd_sprint_end := sprint_end |})
          end
      end
  end.

(** *** Burndown calculator *)

(** Line 237, one step of the generator: [i] is added when it has a closing
    time whose date is not after the date of [current]. *)
Definition done_step (current : datetime) (acc : Q) (i : Entry) : Q :=
  match closed_at i with
  | Some c => if (date c <=? date current)%Z
              then acc + story_points i else acc
  | None => acc
  end.

(** Line 237: [sum(...)] over the items, from 0. *)
Definition done_points (its : list Entry) (current : datetime) : Q :=
  fold_left (done_step current) its 0.

(** The variables the [while] loop updates. *)
Record LoopState : Type := mk_loop_state {
  current : datetime;
  ls_dates : list datetime;
  ls_remaining : list Q;
  ls_ideal : list Q
}.

(** Lines 236-243: one iteration. *)
Definition loop_body (pdata : ProjectData) (total daily : Q) (st : LoopState)
  : LoopState :=
  let done := done_points (items pdata) (current st) in
  let rem := Py.max0 (total - done) in
  let elapsed := days_between (current st) (pd_sprint_start pdata) in
  let ideal_rem := Py.max0 (total - daily * inject_Z elapsed) in
  {| current := add_days (current st) 1;
     ls_dates := ls_dates st ++ [current st];
     ls_remaining := ls_remaining st ++ [rem];
     ls_ideal := ls_ideal st ++ [ideal_rem] |}.

(** Line 235: [while current <= sprint_end]. *)
Fixpoint burndown_loop (fuel : nat) (pdata : ProjectData) (total daily : Q)
         (st : LoopState) : exc LoopState :=
  if dt_leb (current st) (pd_sprint_end pdata) then
    match fuel with
    | O => OutOfFuel
    | S fuel' => burndown_loop fuel' pdata total daily (loop_body pdata total daily st)
    end
  else Done st.

Definition calculate_burndown_data (fuel : nat) (pdata : ProjectData)
           (planned : option Q) : exc Burndown :=
  let sprint_start := pd_sprint_start pdata in
  let sprint_end := pd_sprint_end pdata in
  let total := match planned with
               | Some p => p
               | None => total_points pdata
               end in
  let days := Z.max 1 (days_between sprint_end sprint_start) in
  daily <- py_div total days;;
  st <- burndown_loop fuel pdata total daily
          {| current := sprint_start; ls_dates := [];
             ls_remaining := []; ls_ideal := [] |};;
  Done {| dates := ls_dates st; remaining := ls_remaining st;
          ideal := ls_ideal st; bd_total_points := total |}.

(** *** Renderers and the driver *)

Definition create_matplotlib_chart (data : Burndown)
           (project_name : option string) (save_path : option string)
  : list Event :=
  (if Py.truthy save_path then [Savefig (Py.or_empty save_path)] else [])
  ++ [PltShow].

(** [write_image_ok] tells whether [fig.write_image] succeeds; when it
    raises, the exception is caught on line 276. *)
Definition create_plotly_chart (write_image_ok : bool) (data : Burndown)
           (project_name : option string) (save_path : option string)
  : list Event :=
  (if Py.truthy save_path then
     let html_path := Py.replace ".png" ".html" (Py.or_empty save_path) in
     WriteHtml html_path
     :: (if write_image_ok then [WriteImage (Py.or_empty save_path)] else [])
   else [])
  ++ [FigShow].

Record RunResult : Type := mk_run_result {
  project : ProjectData;
  burndown : Burndown;
  events : list Event
}.

(** [cfg.get("chart_type", "both") in (a, "both")] *)
Definition chart_type_in (cfg : Config) (a : string) : bool :=
  match chart_type cfg with
  | None => true
  | Some t => (t =? a)%string || (t =? "both")%string
  end.

(** [run]; [raw] is what [get_project_data] returned. *)
Definition run (fuel : nat) (write_image_ok : bool) (cfg : Config)
           (raw : option Response) : exc RunResult :=
  sprint_start <- or_raise (fromisoformat (sprint_start cfg));;
  sprint_end <- or_raise (fromisoformat (sprint_end cfg));;
  match raw with
  | None =>
      Raise (RuntimeError
        "Failed to fetch project data from GitHub API. See printed error above.")
  | Some _ =>
      pdata <- process_project_data cfg raw sprint_start sprint_end;;
      match pdata with
      | None =>
          Raise (RuntimeError
            "No project items matched the sprint filter or project response unexpected.")
      | Some pdata =>
          burndown <- calculate_burndown_data fuel pdata (planned_points cfg);;
          let e1 := if chart_type_in cfg "matplotlib"
                    then create_matplotlib_chart burndown (project_name pdata)
                                                 (save_path cfg)
                    else [] in
          let e2 := if chart_type_in cfg "plotly"
                    then create_plotly_chart write_image_ok burndown
                                             (project_name pdata) (save_path cfg)
                    else [] in
          Done {| project := pdata; burndown := burndown; events := e1 ++ e2 |}
      end
  end.

End Chart.

(** ** Inputs of the scenarios *)

(** Scenario A: a sprint from 2024-01-01 to 2024-01-05 and one item of 4
    points closed on 2024-01-03. *)
Definition scenario_A : ProjectData :=
  {| project_name := Some "Board";
     items := [ {| title := "task"; story_points := 4;
                   created_at := Some (datetime_of 2023 12 28 9 0 0);
                   closed_at := Some (datetime_of 2024 1 3 10 0 0);
                   state := Some "CLOSED" |} ];
     total_points := 4;
     pd_sprint_start := datetime_of 2024 1 1 0 0 0;
     pd_sprint_end := datetime_of 2024 1 5 0 0 0 |}.

(** ** Closed form of the burndown series *)

(** The dates visited by the loop: [k] days from [d] on. *)
Fixpoint date_seq (d : datetime) (k : nat) : list datetime :=
  match k with
  | O => []
  | S k' => d :: date_seq (add_days d 1) k'
  end.

(** The number of iterations of the loop when it is entered at [cur]. *)
Definition iterations (cur sprint_end : datetime) : nat :=
  Z.to_nat (days_between sprint_end cur + 1).

Definition planned_total (pdata : ProjectData) (planned : option Q) : Q :=
  match planned with
  | Some p => p
  | None => total_points pdata
  end.

Definition remaining_at (pdata : ProjectData) (total : Q) (d : datetime) : Q :=
  Py.max0 (total - done_points (items pdata) d).

Definition ideal_at (pdata : ProjectData) (total daily : Q) (d : datetime) : Q :=
  Py.max0 (total - daily * inject_Z (days_between d (pd_sprint_start pdata))).

(** The items counted as done on the day of [d], in the words of the
    specification. *)
Definition closed_by (d : datetime) (i : Entry) : bool :=
  match closed_at i with
  | Some c => (date c <=? date d)%Z
  | None => false
  end.

Fixpoint sum_points (its : list Entry) : Q :=
  match its with
  | [] => 0
  | i :: rest => story_points i + sum_points rest
  end.

(** A list of numbers that never grows from one position to a later one. *)
Definition non_increasing (l : list Q) : Prop :=
  forall i j : nat, (i <= j)%nat -> (j < List.length l)%nat -> nth j l 0 <= nth i l 0.

(** ** Story-point and sprint resolution in the words of the specification *)

Fixpoint has_digit (s : string) : bool :=
  match s with
  | EmptyString => false
  | String c s' => Py.is_digit c || has_digit s'
  end.

(** The field name of [v] equals [field_name], letter case apart. *)
Definition names_field (field_name : string) (v : FieldValue) : bool :=
  Py.truthy (fv_field v)
  && (Py.lower (Py.or_empty (fv_field v)) =? Py.lower field_name)%string.

(** The sprint tag a field value carries: its single-select name, else its
    text. *)
Definition sprint_value (v : FieldValue) : option string :=
  if Py.truthy (fv_name v) then fv_name v
  else if Py.truthy (fv_text v) then fv_text v
  else None.

Definition carries_sprint (field_name : string) (v : FieldValue) : bool :=
  names_field field_name v
  && match sprint_value v with Some _ => true | None => false end.

Section Resolution.

Variable float_of_text : string -> option Q.

(** The number a field value yields: its numeric value, else its text
    parsed as a float. *)
Definition field_points (v : FieldValue) : option Q :=
  match fv_number v with
  | Some n => Some n
  | None =>
      if Py.truthy (fv_text v) then float_of_text (Py.or_empty (fv_text v))
      else None
  end.

Definition has_points (v : FieldValue) : bool :=
  match field_points v with Some _ => true | None => false end.

(** The first decimal number of a label. *)
Definition label_points (name : string) : option Q :=
  option_map Py.float_of_match (Py.re_search_decimal name).

(** The four steps of the resolution order, first match wins. *)
Definition resolve_story_points (item : RawItem) (points_field : option string)
  : Q :=
  let fv := fieldValues item in
  let named :=
    match points_field with
    | Some (String _ _ as pf) =>
        find (fun v => names_field pf v && has_points v) fv
    | _ => None
    end in
  match named with
  | Some v => match field_points v with Some x => x | None => 1 end
  | None =>
      match find has_points fv with
      | Some v => match field_points v with Some x => x | None => 1 end
      | None =>
          match find has_digit (item_labels item) with
          | Some name => match label_points name with Some x => x | None => 1 end
          | None => 1
          end
      end
  end.

End Resolution.

(** ** Further inputs of the scenarios *)

Definition number_field (field : string) (n : Q) : FieldValue :=
  {| fv_field := Some field; fv_name := None; fv_text := None;
     fv_number := Some n |}.

Definition issue (lbls : list string) (closed : option string) : Content :=
  {| c_title := Some "task"; c_state := Some "OPEN";
     createdAt := Some "2024-01-01T08:00:00Z"; closedAt := closed;
     labels := lbls |}.

(** Scenario D: the named field and an unrelated numeric field, in both
    orders. *)
Definition item_D : RawItem :=
  {| content := Some (issue [] None);
     fieldValues := [number_field "Story Points" 3; number_field "Priority" 5] |}.

Definition item_D_swapped : RawItem :=
  {| content := Some (issue [] None);
     fieldValues := [number_field "Priority" 5; number_field "Story Points" 3] |}.

(** Scenario B: filtering by label. *)
Definition config_B : Config :=
  {| project_type := None;
     sprint_start := "2024-01-01"; sprint_end := "2024-01-05";
     sprint_label := Some "Sprint 3"; sprint_field := None;
     points_field := None; planned_points := None;
     save_path := Some "burndown.png"; chart_type := None |}.

Definition item_B_in : RawItem :=
  {| content := Some (issue ["Sprint 3"; "bug"] None); fieldValues := [] |}.

Definition item_B_out : RawItem :=
  {| content := Some (issue ["Sprint 2"] None); fieldValues := [] |}.

(** Filtering by a sprint field. *)
Definition config_field : Config :=
  {| project_type := None;
     sprint_start := "2024-01-01"; sprint_end := "2024-01-05";
     sprint_label := Some "Sprint 3"; sprint_field := Some "Sprint";
     points_field := Some "Story Points"; planned_points := None;
     save_path := None; chart_type := None |}.

Definition item_field_in : RawItem :=
  {| content := Some (issue ["bug"] None);
     fieldValues := [ {| fv_field := Some "sprint"; fv_name := Some "SPRINT 3 (Jan)";
                         fv_text := None; fv_number := None |} ] |}.

(** An item whose closing timestamp is not an ISO-8601 string. *)
Definition item_bad_timestamp : RawItem :=
  {| content := Some (issue ["Sprint 3"] (Some "yesterday"));
     fieldValues := [number_field "Story Points" 3] |}.

(** A number field holding a negative value. *)
Definition item_negative : RawItem :=
  {| content := Some (issue [] None);
     fieldValues := [number_field "Story Points" (-3)] |}.

(** A response whose project is found and whose only item belongs to another
    sprint. *)
Definition response_no_match : Response :=
  {| r_data := Some {| r_organization :=
                         Some {| p_title := Some "Board"; p_items := [item_B_out] |};
                       r_repository := None |} |}.

(** An item with neither field values nor a number in its labels. *)
Definition item_plain : RawItem :=
  {| content := Some (issue ["bug"; "backend"] None); fieldValues := [] |}.

(** ** Vocabulary of the claims about the normaliser *)

(** The item is kept by the loop of [process_project_data]. *)
Definition included (float_of_text : string -> option Q)
           (fromisoformat : string -> option datetime)
           (cfg : Config) (it : RawItem) : Prop :=
  exists entry : Entry,
    normalize_item float_of_text fromisoformat cfg it = Done (Some entry).

(** The timestamp [s] is present and [fromisoformat] rejects it. *)
Definition timestamp_fails (fromisoformat : string -> option datetime)
           (s : option string) : Prop :=
  Py.truthy s = true
  /\ fromisoformat (Py.replace "Z" "+00:00" (Py.or_empty s)) = None.

(** The series the calculator produces, in closed form. *)
Definition series_of (pdata : ProjectData) (planned : option Q) : Burndown :=
  let total := planned_total pdata planned in
  let days := Z.max 1 (days_between (pd_sprint_end pdata) (pd_sprint_start pdata)) in
  let daily := total / inject_Z days in
  let ds := date_seq (pd_sprint_start pdata)
                     (iterations (pd_sprint_start pdata) (pd_sprint_end pdata)) in
  {| dates := ds;
     remaining := map (remaining_at pdata total) ds;
     ideal := map (ideal_at pdata total daily) ds;
     bd_total_points := total |}.

(** ** Response handling of [get_project_data]

    Lines 93-100: what [get_project_data] does with the HTTP response once
    [requests.post] has returned.  Building and sending the request (lines
    79-92) belongs to the environment. *)

(** The decoded body: whether it has an [errors] key, and the rest. *)
Record JsonBody : Type := mk_json_body {
  errors_key : bool;
  body : Response
}.

(** [json_body] is [None] when [resp.json()] raises. *)
Record HttpResponse : Type := mk_http_response {
  status_code : Z;
  json_body : option JsonBody
}.

Inductive fetch_exn : Type :=
| HTTPError (status : Z)
| UnboundLocalError.

(** [resp.raise_for_status()]: raises for the 4xx and 5xx codes. *)
Definition raise_for_status (status : Z) : option fetch_exn :=
  if ((400 <=? status) && (status <? 600))%Z then Some (HTTPError status) else None.

(** After the [try] statement [data] is bound only when decoding succeeded;
    reading it unbound, in the condition of line 97 or in the [print] of line
    98, raises [UnboundLocalError]. *)
Definition get_project_data (resp : HttpResponse) : fetch_exn + option Response :=
  let data := json_body resp in
  match data, raise_for_status (status_code resp) with
  | None, Some e => inl e
  | _, _ =>
      if negb (status_code resp =? 200)%Z then
        match data with
        | None => inl UnboundLocalError
        | Some _ => inr None
        end
      else
        match data with
        | None => inl UnboundLocalError
        | Some b => if errors_key b then inr None else inr (Some (body b))
        end
  end.

(** ** Vocabulary of the further properties *)

(** The project the response holds under the key chosen by [project_type]. *)
Definition selected_project (cfg : Config) (raw : option Response) : option Project :=
  match raw with
  | Some resp =>
      match r_data resp with
      | Some data =>
          if is_organization cfg then r_organization data else r_repository data
      | None => None
      end
  | None => None
  end.

(** The item has a content payload and passes the sprint filter. *)
Definition kept (cfg : Config) (it : RawItem) : bool :=
  match content it with
  | Some _ => sprint_filter cfg it
  | None => false
  end.

Definition item_title (it : RawItem) : string :=
  match content it with
  | Some c => Py.or_empty (c_title c)
  | None => ""
  end.

(** The paths given to the writing calls of a list of events, in order. *)
Definition call_paths (evs : list Event) : list string :=
  flat_map (fun e => match e with
                     | Savefig p => [p]
                     | WriteHtml p => [p]
                     | WriteImage p => [p]
                     | PltShow => []
                     | FigShow => []
                     end) evs.

Definition is_write_image (e : Event) : bool :=
  match e with
  | WriteImage _ => true
  | _ => false
  end.

(** Inputs for the instances of the further properties. *)
Definition item_no_content : RawItem :=
  {| content := None; fieldValues := [number_field "Story Points" 8] |}.

Definition project_sample : Project :=
  {| p_title := Some "Board";
     p_items := [item_B_in; item_no_content; item_B_out; item_bad_timestamp] |}.

Definition response_sample : Response :=
  {| r_data := Some {| r_organization := Some project_sample;
                       r_repository := None |} |}.

(** A sprint whose only item is still open, and one whose only item was
    closed before the sprint began. *)
Definition scenario_open : ProjectData :=
  {| project_name := Some "Board";
     items := [ {| title := "task"; story_points := 4;
                   created_at := Some (datetime_of 2023 12 28 9 0 0);
                   closed_at := None; state := Some "OPEN" |} ];
     total_points := 4;
     pd_sprint_start := datetime_of 2024 1 1 0 0 0;
     pd_sprint_end := datetime_of 2024 1 5 0 0 0 |}.

Definition scenario_early : ProjectData :=
  {| project_name := Some "Board";
     items := [ {| title := "task"; story_points := 4;
                   created_at := Some (datetime_of 2023 12 20 9 0 0);
                   closed_at := Some (datetime_of 2023 12 28 9 0 0);
                   state := Some "CLOSED" |} ];
     total_points := 4;
     pd_sprint_start := datetime_of 2024 1 1 0 0 0;
     pd_sprint_end := datetime_of 2024 1 5 0 0 0 |}.

(** The events of a run that reaches the renderers (lines 294-297). *)
Definition chart_events (ok : bool) (cfg : Config) (b : Burndown)
           (name : option string) : list Event :=
  (if chart_type_in cfg "matplotlib"
   then create_matplotlib_chart b name (save_path cfg) else [])
  ++ (if chart_type_in cfg "plotly"
      then create_plotly_chart ok b name (save_path cfg) else []).

(** A configuration that names a sprint field and no sprint label. *)
Definition config_no_label : Config :=
  {| project_type := None;
     sprint_start := "2024-01-01"; sprint_end := "2024-01-05";
     sprint_label := None; sprint_field := Some "Sprint";
     points_field := None; planned_points := None;
     save_path := None; chart_type := None |}.

(** ** Story points over the full range of [float]

    [_extract_story_points] above takes every float as a rational.  The
    same loops are given here with the values a Python float can also take,
    the infinities and nan, which [float] returns for texts such as "inf" and
    "nan" and for a decimal literal beyond the range of a double. *)

Inductive pyfloat : Type :=
| Finite (q : Q)
| PosInf
| NegInf
| NaN.

Definition is_finite (x : pyfloat) : Prop :=
  match x with
  | Finite _ => True
  | _ => False
  end.

(** [x >= 0], which is false of nan. *)
Definition ge0 (x : pyfloat) : Prop :=
  match x with
  | Finite q => 0 <= q
  | PosInf => True
  | NegInf => False
  | NaN => False
  end.

(** The least magnitude that [float] rounds to an infinity: the midpoint
    between the largest double and 2^1024. *)
Definition dbl_overflow : Q := inject_Z (2 ^ 1024 - 2 ^ 970).

(** [float] on a non-negative decimal literal of value [q]. *)
Definition float_of_decimal (q : Q) : pyfloat :=
  if Qle_bool dbl_overflow q then PosInf else Finite q.

Section ChartFull.

(** [float(s)] on a string with its full range, [None] standing for
    [ValueError]. *)
Variable py_float : string -> option pyfloat.

(** Lines 105-115. *)
Fixpoint scan_named_field_full (points_field_name : string)
         (fv : list FieldValue) : option pyfloat :=
  match fv with
  | [] => None
  | v :: rest =>
      let fname := fv_field v in
      if Py.truthy fname
         && (Py.lower (Py.or_empty fname) =? Py.lower points_field_name)%string
      then
        match fv_number v with
        | Some n => Some (Finite n)
        | None =>
            if Py.truthy (fv_text v)
            then match py_float (Py.or_empty (fv_text v)) with
                 | Some x => Some x
                 | None => scan_named_field_full points_field_name rest
                 end
            else scan_named_field_full points_field_name rest
        end
      else scan_named_field_full points_field_name rest
  end.

(** Lines 116-123. *)
Fixpoint scan_any_field_full (fv : list FieldValue) : option pyfloat :=
  match fv with
  | [] => None
  | v :: rest =>
      match fv_number v with
      | Some n => Some (Finite n)
      | None =>
          if Py.truthy (fv_text v)
          then match py_float (Py.or_empty (fv_text v)) with
               | Some x => Some x
               | None => scan_any_field_full rest
               end
          else scan_any_field_full rest
      end
  end.

(** Lines 126-131. *)
Fixpoint scan_labels_full (lbls : list string) : option pyfloat :=
  match lbls with
  | [] => None
  | name :: rest =>
      match Py.re_search_decimal name with
      | Some m => Some (float_of_decimal (Py.float_of_match m))
      | None => scan_labels_full rest
      end
  end.

(** [_extract_story_points], lines 102-132. *)
Definition _extract_story_points_full (item : RawItem)
           (points_field_name : option string) : pyfloat :=
  let fv := fieldValues item in
  match (if Py.truthy points_field_name
         then scan_named_field_full (Py.or_empty points_field_name) fv
         else None) with
  | Some x => x
  | None =>
      match scan_any_field_full fv with
      | Some x => x
      | None =>
          match scan_labels_full (item_labels item) with
          | Some x => x
          | None => Finite 1
          end
      end
  end.

(** The number a field value yields: its numeric value, else its text
    converted by [float]. *)
Definition field_points_full (v : FieldValue) : option pyfloat :=
  match fv_number v with
  | Some n => Some (Finite n)
  | None =>
      if Py.truthy (fv_text v) then py_float (Py.or_empty (fv_text v))
      else None
  end.

End ChartFull.

(** The finite results of a full-range [float]. *)
Definition finite_part (py_float : string -> option pyfloat) (s : string)
  : option Q :=
  match py_float s with
  | Some (Finite q) => Some q
  | _ => None
  end.

(** A reference instance of the full-range [float]: the special spellings,
    and the plain decimal literals of [Sample.float_plain]. *)
Definition py_float_plain (s : string) : option pyfloat :=
  let l := Py.lower s in
  if ((l =? "nan") || (l =? "+nan") || (l =? "-nan"))%string then Some NaN
  else if ((l =? "inf") || (l =? "+inf") || (l =? "infinity")
           || (l =? "+infinity"))%string then Some PosInf
  else if ((l =? "-inf") || (l =? "-infinity"))%string then Some NegInf
  else option_map Finite (Sample.float_plain s).

Definition text_field (field text : string) : FieldValue :=
  {| fv_field := Some field; fv_name := None; fv_text := Some text;
     fv_number := None |}.

(** Text fields that [float] reads as nan and as an infinity, and a number
    field holding 0. *)
Definition item_nan : RawItem :=
  {| content := Some (issue [] None);
     fieldValues := [text_field "Story Points" "nan"] |}.

Definition item_inf : RawItem :=
  {| content := Some (issue [] None);
     fieldValues := [text_field "Story Points" "inf"] |}.

Definition item_zero : RawItem :=
  {| content := Some (issue [] None);
     fieldValues := [number_field "Story Points" 0] |}.

(** An item whose points come from a label. *)
Definition item_label_points : RawItem :=
  {| content := Some (issue ["bug"; "SP: 2.5"] None); fieldValues := [] |}.

(** ** The entries of a list of items, in the words of the specification *)

(** One entry for each item the normaliser keeps, in order. *)
Definition entries_of (float_of_text : string -> option Q)
           (fromisoformat : string -> option datetime)
           (cfg : Config) (its : list RawItem) : list Entry :=
  flat_map (fun it =>
              match normalize_item float_of_text fromisoformat cfg it with
              | Done (Some entry) => [entry]
              | _ => []
              end) its.

(** ** The burndown loop *)

Section BurndownLoop.

Variables (pdata : ProjectData) (total daily : Q).

Lemma days_between_step (e cur : datetime) :
  dt_leb cur e = true ->
  iterations cur e = S (iterations (add_days cur 1) e).
Proof.
  unfold dt_leb, iterations, days_between, add_days, us_per_day; cbn [ticks].
  intros H. apply Z.leb_le in H.
  Z.div_mod_to_equations. lia.
Qed.

Lemma iterations_done (e cur : datetime) :
  dt_leb cur e = false -> iterations cur e = O.
Proof.
  unfold dt_leb, iterations, days_between, us_per_day.
  intros H. apply Z.leb_gt in H.
  Z.div_mod_to_equations. lia.
Qed.

(** Enough fuel lets the loop run to its end, where it has appended one
    point per visited day to each of the three lists. *)
Lemma burndown_loop_run (k : nat) :
  forall (fuel : nat) (st : LoopState),
    iterations (current st) (pd_sprint_end pdata) = k ->
    (k <= fuel)%nat ->
    burndown_loop fuel pdata total daily st =
    Done {| current := add_days (current st) (Z.of_nat k);
            ls_dates := ls_dates st ++ date_seq (current st) k;
            ls_remaining :=
              ls_remaining st
              ++ map (remaining_at pdata total) (date_seq (current st) k);
            ls_ideal :=
              ls_ideal st
              ++ map (ideal_at pdata total daily) (date_seq (current st) k) |}.
Proof.
  induction k as [|k IH]; intros fuel st Hk Hfuel.
  - assert (Hc : dt_leb (current st) (pd_sprint_end pdata) = false).
    { destruct (dt_leb (current st) (pd_sprint_end pdata)) eqn:E; trivial.
      apply days_between_step in E. congruence. }
    destruct fuel; simpl; rewrite Hc, !app_nil_r;
      destruct st as [[c] ds rs ids]; unfold add_days; simpl;
      rewrite Z.add_0_r; reflexivity.
  - assert (Hc : dt_leb (current st) (pd_sprint_end pdata) = true).
    { destruct (dt_leb (current st) (pd_sprint_end pdata)) eqn:E; trivial.
      apply iterations_done in E. congruence. }
    destruct fuel as [|fuel]; [lia|].
    cbn [burndown_loop]. rewrite Hc.
    rewrite (IH fuel (loop_body pdata total daily st)).
    + unfold loop_body; cbn [current ls_dates ls_remaining ls_ideal date_seq map].
      rewrite <- !app_assoc. cbn [app].
      f_equal. f_equal.
      unfold add_days; cbn [ticks]. f_equal. lia.
    + apply days_between_step in Hc. cbn [loop_body current]. congruence.
    + lia.
Qed.

End BurndownLoop.

(** With fuel for every day of the sprint the calculator returns the closed
    form; in particular the division on line 234 never raises. *)
Lemma calculate_burndown_data_run (pdata : ProjectData) (planned : option Q)
      (extra : nat) :
  calculate_burndown_data
    (iterations (pd_sprint_start pdata) (pd_sprint_end pdata) + extra) pdata planned
  = Done (series_of pdata planned).
Proof.
  unfold calculate_burndown_data, py_div.
  destruct (Z.eqb_spec (Z.max 1 (days_between (pd_sprint_end pdata)
                                              (pd_sprint_start pdata))) 0) as [E|_];
    [lia|].
  cbn [bind].
  rewrite (burndown_loop_run pdata _ _
             (iterations (pd_sprint_start pdata) (pd_sprint_end pdata)));
    [reflexivity | reflexivity | lia].
Qed.

Lemma burndown_loop_starved (pdata : ProjectData) (total daily : Q) (fuel : nat) :
  forall st : LoopState,
    (fuel < iterations (current st) (pd_sprint_end pdata))%nat ->
    burndown_loop fuel pdata total daily st = OutOfFuel.
Proof.
  induction fuel as [|fuel IH]; intros st Hlt; cbn [burndown_loop];
    destruct (dt_leb (current st) (pd_sprint_end pdata)) eqn:E;
    try (apply iterations_done in E; lia); trivial.
  apply IH. apply days_between_step in E. cbn [loop_body current]. lia.
Qed.

(** Whatever the fuel, a returned series is the closed form. *)
Lemma calculate_burndown_data_inv (fuel : nat) (pdata : ProjectData)
      (planned : option Q) (r : Burndown) :
  calculate_burndown_data fuel pdata planned = Done r ->
  r = series_of pdata planned.
Proof.
  intros H.
  destruct (Nat.lt_ge_cases fuel
              (iterations (pd_sprint_start pdata) (pd_sprint_end pdata))) as [Hlt|Hge].
  - exfalso. revert H. unfold calculate_burndown_data, py_div.
    destruct (Z.eqb_spec (Z.max 1 (days_between (pd_sprint_end pdata)
                                                (pd_sprint_start pdata))) 0) as [E|_];
      [lia|].
    cbn [bind]. rewrite burndown_loop_starved by exact Hlt. discriminate.
  - replace fuel
      with (iterations (pd_sprint_start pdata) (pd_sprint_end pdata)
            + (fuel - iterations (pd_sprint_start pdata) (pd_sprint_end pdata)))%nat
      in H by lia.
    rewrite calculate_burndown_data_run in H. congruence.
Qed.

(** ** Facts about the visited dates *)

Lemma date_seq_length (d : datetime) (k : nat) : List.length (date_seq d k) = k.
Proof.
  revert d; induction k as [|k IH]; intros d; cbn [date_seq List.length];
    [reflexivity | now rewrite IH].
Qed.

Lemma add_days_add_days (d : datetime) (a b : Z) :
  add_days (add_days d a) b = add_days d (a + b).
Proof. unfold add_days; cbn [ticks]. f_equal. lia. Qed.

Lemma date_seq_nth_error (k : nat) :
  forall (d : datetime) (i : nat),
    (i < k)%nat ->
    nth_error (date_seq d k) i = Some (add_days d (Z.of_nat i)).
Proof.
  induction k as [|k IH]; intros d i Hi; [lia|].
  destruct i as [|i]; cbn [date_seq nth_error].
  - destruct d as [t]. unfold add_days; cbn [ticks Z.of_nat]. do 2 f_equal. lia.
  - rewrite IH by lia. rewrite add_days_add_days. do 2 f_equal. lia.
Qed.

Lemma date_seq_In (k : nat) (d x : datetime) :
  In x (date_seq d k) ->
  exists i : nat, (i < k)%nat /\ x = add_days d (Z.of_nat i).
Proof.
  intros Hin. apply In_nth_error in Hin. destruct Hin as [i Hi].
  assert (Hlt : (i < k)%nat).
  { rewrite <- (date_seq_length d k). apply nth_error_Some. congruence. }
  exists i. split; [exact Hlt|].
  rewrite date_seq_nth_error in Hi by exact Hlt. congruence.
Qed.

Lemma date_seq_last (k : nat) :
  forall d d0 : datetime,
    last (date_seq d (S k)) d0 = add_days d (Z.of_nat k).
Proof.
  induction k as [|k IH]; intros d d0.
  - cbn [date_seq last]. destruct d as [t]. unfold add_days; cbn [ticks Z.of_nat].
    f_equal. lia.
  - change (date_seq d (S (S k))) with (d :: date_seq (add_days d 1) (S k)).
    change (last (d :: date_seq (add_days d 1) (S k)) d0)
      with (last (date_seq (add_days d 1) (S k)) d0).
    rewrite IH, add_days_add_days. f_equal. lia.
Qed.

Lemma date_add_days (d : datetime) (n : Z) : date (add_days d n) = (date d + n)%Z.
Proof.
  unfold date, add_days, us_per_day; cbn [ticks].
  rewrite Z.div_add by lia. reflexivity.
Qed.

(** ** Facts about the points done *)

Lemma max0_nonneg (x : Q) : 0 <= Py.max0 x.
Proof.
  unfold Py.max0. destruct (Qle_bool x 0) eqn:E; [lra|].
  destruct (Qlt_le_dec 0 x) as [H|H]; [lra|].
  apply Qle_bool_iff in H. congruence.
Qed.

Lemma max0_mono (x y : Q) : x <= y -> Py.max0 x <= Py.max0 y.
Proof.
  intros Hxy. unfold Py.max0.
  destruct (Qle_bool x 0) eqn:Ex; destruct (Qle_bool y 0) eqn:Ey; try lra.
  - destruct (Qlt_le_dec 0 y) as [H|H]; [lra|].
    apply Qle_bool_iff in H. congruence.
  - apply Qle_bool_iff in Ey.
    destruct (Qlt_le_dec 0 x) as [H|H]; [lra|].
    apply Qle_bool_iff in H. congruence.
Qed.

Lemma done_fold_mono (d1 d2 : datetime) :
  (date d1 <= date d2)%Z ->
  forall (its : list Entry) (a1 a2 : Q),
    (forall i, In i its -> 0 <= story_points i) ->
    a1 <= a2 ->
    fold_left (done_step d1) its a1 <= fold_left (done_step d2) its a2.
Proof.
  intros Hd its. induction its as [|i its IH]; intros a1 a2 Hpos Ha;
    cbn [fold_left]; [exact Ha|].
  apply IH; [intros j Hj; apply Hpos; now right|].
  assert (Hi : 0 <= story_points i) by (apply Hpos; now left).
  unfold done_step. destruct (closed_at i) as [c|]; [|exact Ha].
  destruct (Z.leb_spec (date c) (date d1)), (Z.leb_spec (date c) (date d2));
    try lra; lia.
Qed.

Lemma done_fold_sum (d : datetime) :
  forall (its : list Entry) (a : Q),
    fold_left (done_step d) its a == a + sum_points (filter (closed_by d) its).
Proof.
  intros its. induction its as [|i its IH]; intros a; cbn [fold_left filter].
  - cbn [sum_points]. lra.
  - rewrite IH. unfold done_step, closed_by.
    destruct (closed_at i) as [c|]; [|reflexivity].
    destruct (date c <=? date d)%Z; [|reflexivity].
    cbn [sum_points]. lra.
Qed.

(** The points done grow with the day. *)
Lemma done_points_mono (its : list Entry) (d1 d2 : datetime) :
  (forall i, In i its -> 0 <= story_points i) ->
  (date d1 <= date d2)%Z ->
  done_points its d1 <= done_points its d2.
Proof.
  intros Hpos Hd. unfold done_points.
  apply (done_fold_mono d1 d2 Hd its 0 0 Hpos). lra.
Qed.

(** The points done are the sum over the items closed on or before the
    day. *)
Lemma done_points_sum (its : list Entry) (d : datetime) :
  done_points its d == sum_points (filter (closed_by d) its).
Proof.
  unfold done_points.
  rewrite (done_fold_sum d its 0). lra.
Qed.

(** ** Claims about the burndown calculator *)

Lemma nth_map_date_seq (f : datetime -> Q) (d : datetime) (k i : nat) :
  (i < k)%nat ->
  nth i (map f (date_seq d k)) 0 = f (add_days d (Z.of_nat i)).
Proof.
  intros Hi.
  apply nth_error_nth.
  rewrite nth_error_map, date_seq_nth_error by exact Hi. reflexivity.
Qed.

(** C1 (as amended).  In scenario A the calculator returns, for the five days
    from 2024-01-01 to 2024-01-05, the remaining points 10, 10, 6, 6, 6 (the
    item closed on 2024-01-03 counts as done on that very day) and the ideal
    points 10, 7.5, 5, 2.5, 0.  In general every remaining value is
    [max(0, total - done(d))] for its date [d], and [done(d)] is the sum of
    the story points of the items whose closing date is on or before the
    date of [d]. *)
Theorem C1_scenario_A_series :
  (exists r : Burndown,
      calculate_burndown_data 5 scenario_A (Some 10) = Done r
      /\ dates r = [datetime_of 2024 1 1 0 0 0; datetime_of 2024 1 2 0 0 0;
                    datetime_of 2024 1 3 0 0 0; datetime_of 2024 1 4 0 0 0;
                    datetime_of 2024 1 5 0 0 0]
      /\ Forall2 Qeq (remaining r) [10; 10; 6; 6; 6]
      /\ Forall2 Qeq (ideal r) [10; 7.5; 5; 2.5; 0])
  /\ (forall (pdata : ProjectData) (planned : option Q) (extra : nat),
         exists r : Burndown,
           calculate_burndown_data
             (iterations (pd_sprint_start pdata) (pd_sprint_end pdata) + extra)
             pdata planned = Done r
           /\ remaining r =
              map (fun d => Py.max0 (planned_total pdata planned
                                     - done_points (items pdata) d))
                  (dates r))
  /\ (forall (its : list Entry) (d : datetime),
         done_points its d == sum_points (filter (closed_by d) its)).
Proof.
  split; [|split].
  - eexists. split; [vm_compute; reflexivity|].
    split; [reflexivity|].
    split; repeat constructor.
  - intros pdata planned extra. exists (series_of pdata planned).
    split; [apply calculate_burndown_data_run | reflexivity].
  - exact done_points_sum.
Qed.

(** The remaining sequence of scenario A as the specification gives it,
    10, 10, 10, 6, 6, is not what the calculator returns, whatever the
    fuel. *)
Lemma C1_scenario_A_remaining_differs :
  ~ (exists (fuel : nat) (r : Burndown),
        calculate_burndown_data fuel scenario_A (Some 10) = Done r
        /\ Forall2 Qeq (remaining r) [10; 10; 10; 6; 6]).
Proof.
  intros (fuel & r & Hr & Hrem).
  apply calculate_burndown_data_inv in Hr. subst r.
  vm_compute in Hrem.
  inversion Hrem as [|? ? ? ? _ H1]; subst.
  inversion H1 as [|? ? ? ? _ H2]; subst.
  inversion H2 as [|? ? ? ? H3 _]; subst.
  discriminate H3.
Qed.

(** C6.  For a sprint with [sprint_start <= sprint_end] the calculator
    returns (the division by [days] never raises, [days] being at least 1) a
    series with [whole_days(sprint_end - sprint_start) + 1] dates, as many
    remaining and ideal values, the dates being [sprint_start],
    [sprint_start] + 1 day, ... up to the last one that is not after
    [sprint_end]; that last date is [sprint_end] itself when the sprint spans
    a whole number of days.  A sprint with [sprint_end == sprint_start] has
    [days] = 1 and exactly one data point. *)
Theorem C6_series_shape (pdata : ProjectData) (planned : option Q) (extra : nat) :
  dt_leb (pd_sprint_start pdata) (pd_sprint_end pdata) = true ->
  exists r : Burndown,
    calculate_burndown_data
      (iterations (pd_sprint_start pdata) (pd_sprint_end pdata) + extra)
      pdata planned = Done r
    /\ Z.of_nat (List.length (dates r))
       = (days_between (pd_sprint_end pdata) (pd_sprint_start pdata) + 1)%Z
    /\ List.length (remaining r) = List.length (dates r)
    /\ List.length (ideal r) = List.length (dates r)
    /\ (forall i : nat,
           (i < List.length (dates r))%nat ->
           nth_error (dates r) i
           = Some (add_days (pd_sprint_start pdata) (Z.of_nat i)))
    /\ (forall d : datetime, In d (dates r) -> dt_leb d (pd_sprint_end pdata) = true)
    /\ dt_leb (add_days (pd_sprint_start pdata) (Z.of_nat (List.length (dates r))))
              (pd_sprint_end pdata) = false
    /\ (((ticks (pd_sprint_end pdata) - ticks (pd_sprint_start pdata))
          mod us_per_day = 0)%Z ->
        last (dates r) (pd_sprint_start pdata) = pd_sprint_end pdata)
    /\ (pd_sprint_end pdata = pd_sprint_start pdata ->
        Z.max 1 (days_between (pd_sprint_end pdata) (pd_sprint_start pdata)) = 1%Z
        /\ dates r = [pd_sprint_start pdata]).
Proof.
  intros Hle. exists (series_of pdata planned).
  split; [apply calculate_burndown_data_run|].
  unfold series_of; cbn [dates remaining ideal].
  rewrite !length_map, !date_seq_length.
  set (s := pd_sprint_start pdata) in *. set (e := pd_sprint_end pdata) in *.
  assert (Hn : Z.of_nat (iterations s e) = (days_between e s + 1)%Z).
  { unfold iterations, days_between, dt_leb, us_per_day in *.
    apply Z.leb_le in Hle. Z.div_mod_to_equations. lia. }
  repeat split.
  - exact Hn.
  - intros i Hi. now apply date_seq_nth_error.
  - intros d Hd. apply date_seq_In in Hd. destruct Hd as (i & Hi & ->).
    unfold dt_leb, add_days; cbn [ticks]. apply Z.leb_le.
    unfold days_between, us_per_day in *. apply Z.leb_le in Hle.
    Z.div_mod_to_equations. nia.
  - unfold dt_leb, add_days; cbn [ticks]. apply Z.leb_gt.
    rewrite Hn. unfold days_between, us_per_day in *.
    Z.div_mod_to_equations. nia.
  - intros Hmod.
    destruct (iterations s e) as [|k] eqn:Ek.
    + exfalso. unfold days_between, dt_leb, us_per_day in *.
      apply Z.leb_le in Hle. Z.div_mod_to_equations. lia.
    + rewrite date_seq_last. destruct e as [te]. unfold add_days. f_equal.
      unfold days_between, us_per_day in *. cbn [ticks] in *.
      Z.div_mod_to_equations. nia.
  - rewrite H. unfold days_between. rewrite Z.sub_diag. reflexivity.
  - unfold iterations, days_between. rewrite H, Z.sub_diag. reflexivity.
Qed.

Lemma C6_series_shape_witness :
  dt_leb (pd_sprint_start scenario_A) (pd_sprint_end scenario_A) = true
  /\ exists r : Burndown,
      calculate_burndown_data 5 scenario_A (Some 10) = Done r
      /\ Z.of_nat (List.length (dates r)) = 5%Z.
Proof.
  split; [reflexivity|].
  destruct (C6_series_shape scenario_A (Some 10) 0 eq_refl) as (r & Hr & Hlen & _).
  exists r. split; [exact Hr | exact Hlen].
Defined.

(** C7.  When every item of the snapshot has [story_points >= 0], the points
    done never decrease from one date of the series to a later one, the
    remaining sequence returned by the calculator is non-increasing, and all
    its values are [>= 0]. *)
Theorem C7_remaining_non_increasing (pdata : ProjectData) (planned : option Q)
        (extra : nat) :
  (forall i : Entry, In i (items pdata) -> 0 <= story_points i) ->
  exists r : Burndown,
    calculate_burndown_data
      (iterations (pd_sprint_start pdata) (pd_sprint_end pdata) + extra)
      pdata planned = Done r
    /\ (forall (i j : nat) (di dj : datetime),
           (i <= j)%nat ->
           nth_error (dates r) i = Some di ->
           nth_error (dates r) j = Some dj ->
           done_points (items pdata) di <= done_points (items pdata) dj)
    /\ non_increasing (remaining r)
    /\ Forall (fun x : Q => 0 <= x) (remaining r).
Proof.
  intros Hpos. exists (series_of pdata planned).
  split; [apply calculate_burndown_data_run|].
  unfold series_of; cbn [dates remaining].
  set (s := pd_sprint_start pdata). set (n := iterations s (pd_sprint_end pdata)).
  assert (Hdone : forall i j : nat, (i <= j)%nat ->
            done_points (items pdata) (add_days s (Z.of_nat i))
            <= done_points (items pdata) (add_days s (Z.of_nat j))).
  { intros i j Hij. apply done_points_mono; [exact Hpos|].
    rewrite !date_add_days. lia. }
  split; [|split].
  - intros i j di dj Hij Hi Hj.
    assert (Hjn : (j < n)%nat).
    { rewrite <- (date_seq_length s n). apply nth_error_Some. congruence. }
    rewrite date_seq_nth_error in Hi, Hj by lia.
    injection Hi as <-. injection Hj as <-. now apply Hdone.
  - intros i j Hij Hj. rewrite length_map, date_seq_length in Hj.
    rewrite !nth_map_date_seq by lia.
    apply max0_mono. unfold remaining_at.
    specialize (Hdone i j Hij).
    set (total := planned_total pdata planned). lra.
  - apply Forall_forall. intros x Hx. apply in_map_iff in Hx.
    destruct Hx as (d & <- & _). apply max0_nonneg.
Qed.

Lemma C7_remaining_non_increasing_witness :
  exists r : Burndown,
    calculate_burndown_data 5 scenario_A (Some 10) = Done r
    /\ non_increasing (remaining r)
    /\ Forall (fun x : Q => 0 <= x) (remaining r).
Proof.
  destruct (C7_remaining_non_increasing scenario_A (Some 10) 0) as (r & Hr & _ & H).
  - intros i [<-|[]]. vm_compute. discriminate.
  - exists r. split; [exact Hr | exact H].
Defined.

(** ** Story points *)

Section StoryPoints.

Variable float_of_text : string -> option Q.

Lemma scan_any_field_find (fv : list FieldValue) :
  scan_any_field float_of_text fv =
  match find (has_points float_of_text) fv with
  | Some v => field_points float_of_text v
  | None => None
  end.
Proof.
  induction fv as [|v fv IH]; [reflexivity|].
  cbn [scan_any_field find].
  destruct (has_points float_of_text v) eqn:Hp;
    unfold has_points, field_points in Hp |- *;
    destruct (fv_number v) as [n|]; try reflexivity; try discriminate;
    destruct (Py.truthy (fv_text v)); try discriminate; try exact IH;
    destruct (float_of_text (Py.or_empty (fv_text v)));
    try reflexivity; try discriminate; exact IH.
Qed.

Lemma scan_named_field_find (pf : string) (fv : list FieldValue) :
  scan_named_field float_of_text pf fv =
  match find (fun v => names_field pf v && has_points float_of_text v) fv with
  | Some v => field_points float_of_text v
  | None => None
  end.
Proof.
  induction fv as [|v fv IH]; [reflexivity|].
  cbn [scan_named_field find]. unfold names_field at 1.
  destruct (Py.truthy (fv_field v)
            && (Py.lower (Py.or_empty (fv_field v)) =? Py.lower pf)%string);
    [|exact IH].
  cbn [andb].
  destruct (has_points float_of_text v) eqn:Hp;
    unfold has_points, field_points in Hp |- *;
    destruct (fv_number v) as [n|]; try reflexivity; try discriminate;
    destruct (Py.truthy (fv_text v)); try discriminate; try exact IH;
    destruct (float_of_text (Py.or_empty (fv_text v)));
    try reflexivity; try discriminate; exact IH.
Qed.

Lemma re_search_decimal_has_digit (s : string) :
  match Py.re_search_decimal s with
  | Some _ => has_digit s = true
  | None => has_digit s = false
  end.
Proof.
  induction s as [|c s IH]; [reflexivity|].
  cbn [Py.re_search_decimal has_digit].
  destruct (Py.is_digit c); [reflexivity | exact IH].
Qed.

Lemma scan_labels_find (lbls : list string) :
  scan_labels lbls =
  match find has_digit lbls with
  | Some name => label_points name
  | None => None
  end.
Proof.
  induction lbls as [|name lbls IH]; [reflexivity|].
  cbn [scan_labels find].
  pose proof (re_search_decimal_has_digit name) as Hd.
  destruct (Py.re_search_decimal name) as [m|] eqn:Em; rewrite Hd;
    [|exact IH].
  unfold label_points. rewrite Em. reflexivity.
Qed.

(** The loops of [_extract_story_points] compute the resolution order. *)
Lemma _extract_story_points_resolve (item : RawItem) (pf : option string) :
  _extract_story_points float_of_text item pf
  = resolve_story_points float_of_text item pf.
Proof.
  unfold _extract_story_points, resolve_story_points.
  rewrite scan_any_field_find, scan_labels_find.
  assert (Hnamed :
    (if Py.truthy pf
     then scan_named_field float_of_text (Py.or_empty pf) (fieldValues item)
     else None)
    = match match pf with
            | Some (String _ _ as name) =>
                find (fun v => names_field name v && has_points float_of_text v)
                     (fieldValues item)
            | _ => None
            end with
      | Some v => field_points float_of_text v
      | None => None
      end).
  { destruct pf as [[|c name]|]; try reflexivity.
    cbn [Py.truthy Py.or_empty]. apply scan_named_field_find. }
  rewrite Hnamed. clear Hnamed.
  destruct (match pf with
            | Some (String _ _ as name) =>
                find (fun v => names_field name v && has_points float_of_text v)
                     (fieldValues item)
            | _ => None
            end) as [v|] eqn:Enamed.
  - assert (Hv : has_points float_of_text v = true).
    { destruct pf as [[|c name]|]; try discriminate.
      apply find_some in Enamed. destruct Enamed as [_ H].
      apply andb_true_iff in H. tauto. }
    unfold has_points in Hv.
    destruct (field_points float_of_text v); [reflexivity | discriminate].
  - destruct (find (has_points float_of_text) (fieldValues item)) as [v|] eqn:Eany.
    + apply find_some in Eany. destruct Eany as [_ Hv]. unfold has_points in Hv.
      destruct (field_points float_of_text v); [reflexivity | discriminate].
    + destruct (find has_digit (item_labels item)) as [name|] eqn:El;
        [|reflexivity].
      apply find_some in El. destruct El as [_ Hd]. unfold label_points.
      pose proof (re_search_decimal_has_digit name) as Hs.
      destruct (Py.re_search_decimal name); [reflexivity | congruence].
Qed.

(** A decimal literal is never negative. *)
Lemma digit_val_nonneg (c : ascii) : Py.is_digit c = true -> (0 <= Py.digit_val c)%Z.
Proof.
  unfold Py.is_digit, Py.digit_val. intros H.
  apply andb_true_iff in H. destruct H as [H _]. apply Nat.leb_le in H. lia.
Qed.

Lemma digits_val_span_nonneg (s : string) :
  forall acc : Z, (0 <= acc)%Z ->
                  (0 <= Py.digits_val acc (fst (Py.span_digits s)))%Z.
Proof.
  induction s as [|c s IH]; intros acc Hacc; [exact Hacc|].
  cbn [Py.span_digits]. destruct (Py.is_digit c) eqn:Ec; [|exact Hacc].
  specialize (IH (10 * acc + Py.digit_val c)%Z).
  destruct (Py.span_digits s) as [ds rest]. cbn [fst Py.digits_val] in *.
  apply IH. pose proof (digit_val_nonneg c Ec). lia.
Qed.

Lemma float_of_match_nonneg (s : string) : 0 <= Py.float_of_match (Py.match_decimal s).
Proof.
  unfold Py.match_decimal.
  pose proof (digits_val_span_nonneg s 0 (Z.le_refl 0)) as Hip.
  destruct (Py.span_digits s) as [ip rest]. cbn [fst] in Hip.
  assert (Hq : forall (a b : Z) (p : positive),
             (0 <= a)%Z -> (0 <= b)%Z -> 0 <= inject_Z a + Qmake b p).
  { intros a b p Ha Hb. unfold Qle, Qplus, inject_Z. cbn. nia. }
  destruct rest as [|c rest]; [apply Hq; cbn; lia|].
  destruct (Ascii.eqb_spec c "."%char) as [->|Hne].
  - apply Hq; [exact Hip | apply digits_val_span_nonneg; lia].
  - assert (Hgen : 0 <= Py.float_of_match (ip, EmptyString))
      by (apply Hq; cbn; lia).
    destruct c as [[] [] [] [] [] [] [] []]; try exact Hgen.
    now elim Hne.
Qed.

Lemma label_points_nonneg (name : string) (x : Q) :
  label_points name = Some x -> 0 <= x.
Proof.
  unfold label_points.
  induction name as [|c name IH]; cbn [Py.re_search_decimal option_map];
    [discriminate|].
  destruct (Py.is_digit c); [|exact IH].
  cbn [option_map]. intros H. injection H as <-. apply float_of_match_nonneg.
Qed.

End StoryPoints.

(** ** Claims about story points *)

Section StoryPointsFull.

Variable py_float : string -> option pyfloat.

Lemma scan_any_field_full_some (fv : list FieldValue) (x : pyfloat) :
  scan_any_field_full py_float fv = Some x ->
  exists v : FieldValue, In v fv /\ field_points_full py_float v = Some x.
Proof.
  induction fv as [|v fv IH]; [discriminate|].
  cbn [scan_any_field_full]. intros H.
  assert (Hhere : field_points_full py_float v = Some x
                  \/ scan_any_field_full py_float fv = Some x).
  { unfold field_points_full.
    destruct (fv_number v) as [n|]; [now left|].
    destruct (Py.truthy (fv_text v)); [|now right].
    destruct (py_float (Py.or_empty (fv_text v))); [now left | now right]. }
  destruct Hhere as [Hv|Hrest].
  - exists v. split; [now left | exact Hv].
  - destruct (IH Hrest) as (w & Hw & Hx). exists w. split; [now right | exact Hx].
Qed.

Lemma scan_named_field_full_some (pf : string) (fv : list FieldValue) (x : pyfloat) :
  scan_named_field_full py_float pf fv = Some x ->
  exists v : FieldValue, In v fv /\ field_points_full py_float v = Some x.
Proof.
  induction fv as [|v fv IH]; [discriminate|].
  cbn [scan_named_field_full]. intros H.
  assert (Hhere : field_points_full py_float v = Some x
                  \/ scan_named_field_full py_float pf fv = Some x).
  { unfold field_points_full.
    destruct (Py.truthy (fv_field v)
              && (Py.lower (Py.or_empty (fv_field v)) =? Py.lower pf)%string);
      [|now right].
    destruct (fv_number v) as [n|]; [now left|].
    destruct (Py.truthy (fv_text v)); [|now right].
    destruct (py_float (Py.or_empty (fv_text v))); [now left | now right]. }
  destruct Hhere as [Hv|Hrest].
  - exists v. split; [now left | exact Hv].
  - destruct (IH Hrest) as (w & Hw & Hx). exists w. split; [now right | exact Hx].
Qed.

Lemma scan_any_field_full_none (fv : list FieldValue) :
  (forall v : FieldValue, In v fv -> field_points_full py_float v = None) ->
  scan_any_field_full py_float fv = None.
Proof.
  induction fv as [|v fv IH]; intros Hnone; [reflexivity|].
  cbn [scan_any_field_full].
  pose proof (Hnone v (or_introl eq_refl)) as Hv. unfold field_points_full in Hv.
  assert (Hrest : scan_any_field_full py_float fv = None)
    by (apply IH; intros w Hw; apply Hnone; now right).
  destruct (fv_number v) as [n|]; [discriminate|].
  destruct (Py.truthy (fv_text v)); [|exact Hrest].
  rewrite Hv. exact Hrest.
Qed.

Lemma scan_named_field_full_none (pf : string) (fv : list FieldValue) :
  (forall v : FieldValue, In v fv -> field_points_full py_float v = None) ->
  scan_named_field_full py_float pf fv = None.
Proof.
  induction fv as [|v fv IH]; intros Hnone; [reflexivity|].
  cbn [scan_named_field_full].
  pose proof (Hnone v (or_introl eq_refl)) as Hv. unfold field_points_full in Hv.
  assert (Hrest : scan_named_field_full py_float pf fv = None)
    by (apply IH; intros w Hw; apply Hnone; now right).
  destruct (Py.truthy (fv_field v)
            && (Py.lower (Py.or_empty (fv_field v)) =? Py.lower pf)%string);
    [|exact Hrest].
  destruct (fv_number v) as [n|]; [discriminate|].
  destruct (Py.truthy (fv_text v)); [|exact Hrest].
  rewrite Hv. exact Hrest.
Qed.

Lemma scan_labels_full_some (lbls : list string) (x : pyfloat) :
  scan_labels_full lbls = Some x ->
  exists (name : string) (m : string * string),
    In name lbls /\ Py.re_search_decimal name = Some m
    /\ x = float_of_decimal (Py.float_of_match m).
Proof.
  induction lbls as [|name lbls IH]; [discriminate|].
  cbn [scan_labels_full].
  destruct (Py.re_search_decimal name) as [m|] eqn:Em.
  - intros H. injection H as <-. exists name, m.
    split; [now left|]. split; [exact Em | reflexivity].
  - intros H. destruct (IH H) as (n & m & Hin & Hm & Hx).
    exists n, m. split; [now right|]. split; assumption.
Qed.

Lemma scan_labels_full_none (lbls : list string) :
  (forall name : string, In name lbls -> has_digit name = false) ->
  scan_labels_full lbls = None.
Proof.
  induction lbls as [|name lbls IH]; intros Hno; [reflexivity|].
  cbn [scan_labels_full].
  pose proof (re_search_decimal_has_digit name) as Hd.
  destruct (Py.re_search_decimal name) as [m|].
  - rewrite (Hno name (or_introl eq_refl)) in Hd. discriminate.
  - apply IH. intros n Hn. apply Hno. now right.
Qed.

(** A decimal literal below the overflow bound converts to a finite float
    that is not negative. *)
Lemma float_of_decimal_finite (m : string * string) (s : string) :
  m = Py.match_decimal s ->
  Py.float_of_match m < dbl_overflow ->
  is_finite (float_of_decimal (Py.float_of_match m))
  /\ ge0 (float_of_decimal (Py.float_of_match m)).
Proof.
  intros -> Hlt. unfold float_of_decimal.
  destruct (Qle_bool dbl_overflow (Py.float_of_match (Py.match_decimal s))) eqn:E.
  - apply Qle_bool_iff in E. exfalso. apply (Qlt_not_le _ _ Hlt E).
  - split; [exact I | apply float_of_match_nonneg].
Qed.

Lemma re_search_decimal_match (name : string) (m : string * string) :
  Py.re_search_decimal name = Some m ->
  exists s : string, m = Py.match_decimal s.
Proof.
  induction name as [|c name IH]; cbn [Py.re_search_decimal]; [discriminate|].
  destruct (Py.is_digit c); [|exact IH].
  intros H. injection H as <-. now exists (String c name).
Qed.

(** The rational model is the full one on the items whose numbers are all
    finite. *)
Lemma scan_named_field_full_finite (pf : string) (fv : list FieldValue) :
  (forall (v : FieldValue) (x : pyfloat),
      In v fv -> field_points_full py_float v = Some x -> is_finite x) ->
  scan_named_field_full py_float pf fv
  = option_map Finite (scan_named_field (finite_part py_float) pf fv).
Proof.
  induction fv as [|v fv IH]; intros Hfin; [reflexivity|].
  cbn [scan_named_field_full scan_named_field].
  pose proof (Hfin v) as Hv. unfold field_points_full in Hv.
  assert (Hrest : scan_named_field_full py_float pf fv
                  = option_map Finite (scan_named_field (finite_part py_float) pf fv))
    by (apply IH; intros w x Hw; apply Hfin; now right).
  destruct (Py.truthy (fv_field v)
            && (Py.lower (Py.or_empty (fv_field v)) =? Py.lower pf)%string);
    [|exact Hrest].
  destruct (fv_number v) as [n|]; [reflexivity|].
  destruct (Py.truthy (fv_text v)); [|exact Hrest].
  unfold finite_part.
  destruct (py_float (Py.or_empty (fv_text v))) as [x|]; [|exact Hrest].
  specialize (Hv x (or_introl eq_refl) eq_refl).
  destruct x; try reflexivity; contradiction.
Qed.

Lemma scan_any_field_full_finite (fv : list FieldValue) :
  (forall (v : FieldValue) (x : pyfloat),
      In v fv -> field_points_full py_float v = Some x -> is_finite x) ->
  scan_any_field_full py_float fv
  = option_map Finite (scan_any_field (finite_part py_float) fv).
Proof.
  induction fv as [|v fv IH]; intros Hfin; [reflexivity|].
  cbn [scan_any_field_full scan_any_field].
  pose proof (Hfin v) as Hv. unfold field_points_full in Hv.
  assert (Hrest : scan_any_field_full py_float fv
                  = option_map Finite (scan_any_field (finite_part py_float) fv))
    by (apply IH; intros w x Hw; apply Hfin; now right).
  destruct (fv_number v) as [n|]; [reflexivity|].
  destruct (Py.truthy (fv_text v)); [|exact Hrest].
  unfold finite_part.
  destruct (py_float (Py.or_empty (fv_text v))) as [x|]; [|exact Hrest].
  specialize (Hv x (or_introl eq_refl) eq_refl).
  destruct x; try reflexivity; contradiction.
Qed.

Lemma scan_labels_full_finite (lbls : list string) :
  (forall (name : string) (m : string * string),
      In name lbls -> Py.re_search_decimal name = Some m ->
      Py.float_of_match m < dbl_overflow) ->
  scan_labels_full lbls = option_map Finite (scan_labels lbls).
Proof.
  induction lbls as [|name lbls IH]; intros Hlt; [reflexivity|].
  cbn [scan_labels_full scan_labels].
  pose proof (Hlt name) as Hn.
  destruct (Py.re_search_decimal name) as [m|].
  - specialize (Hn m (or_introl eq_refl) eq_refl).
    cbn [option_map]. unfold float_of_decimal.
    destruct (Qle_bool dbl_overflow (Py.float_of_match m)) eqn:E; [|reflexivity].
    apply Qle_bool_iff in E. exfalso. apply (Qlt_not_le _ _ Hn E).
  - apply IH. intros n m Hin. apply Hlt. now right.
Qed.

Lemma _extract_story_points_full_finite (item : RawItem) (pf : option string) :
  (forall (v : FieldValue) (x : pyfloat),
      In v (fieldValues item) -> field_points_full py_float v = Some x ->
      is_finite x) ->
  (forall (name : string) (m : string * string),
      In name (item_labels item) -> Py.re_search_decimal name = Some m ->
      Py.float_of_match m < dbl_overflow) ->
  _extract_story_points_full py_float item pf
  = Finite (_extract_story_points (finite_part py_float) item pf).
Proof.
  intros Hfin Hlt. unfold _extract_story_points_full, _extract_story_points.
  rewrite (scan_any_field_full_finite _ Hfin), (scan_labels_full_finite _ Hlt).
  destruct (Py.truthy pf).
  - rewrite (scan_named_field_full_finite _ _ Hfin).
    destruct (scan_named_field (finite_part py_float) (Py.or_empty pf)
                               (fieldValues item)); cbn [option_map];
      [reflexivity|].
    destruct (scan_any_field (finite_part py_float) (fieldValues item));
      cbn [option_map]; [reflexivity|].
    destruct (scan_labels (item_labels item)); reflexivity.
  - destruct (scan_any_field (finite_part py_float) (fieldValues item));
      cbn [option_map]; [reflexivity|].
    destruct (scan_labels (item_labels item)); reflexivity.
Qed.

End StoryPointsFull.

(** C3 (as amended).  When no field value yields a number (neither a numeric
    value nor a text that [float] accepts) and no label contains a digit, the
    story points resolve to exactly 1.0.  When every number that a field
    value of the item yields is finite and [>= 0] (so no negative number, no
    nan and no infinity, which [float] reads from texts such as "nan" and
    "inf") and no label holds a decimal number beyond the range of a double,
    the resolved story points are a finite float [>= 0]; they can be 0. *)
Theorem C3_story_points_finite_nonneg
        (py_float : string -> option pyfloat) (item : RawItem) (pf : option string) :
  ((forall v : FieldValue,
       In v (fieldValues item) -> field_points_full py_float v = None) ->
   (forall name : string, In name (item_labels item) -> has_digit name = false) ->
   _extract_story_points_full py_float item pf = Finite 1)
  /\ ((forall (v : FieldValue) (x : pyfloat),
          In v (fieldValues item) -> field_points_full py_float v = Some x ->
          is_finite x /\ ge0 x) ->
      (forall (name : string) (m : string * string),
          In name (item_labels item) -> Py.re_search_decimal name = Some m ->
          Py.float_of_match m < dbl_overflow) ->
      is_finite (_extract_story_points_full py_float item pf)
      /\ ge0 (_extract_story_points_full py_float item pf)).
Proof.
  unfold _extract_story_points_full. split.
  - intros Hfields Hlabels.
    rewrite (scan_any_field_full_none py_float _ Hfields).
    rewrite (scan_labels_full_none _ Hlabels).
    destruct (Py.truthy pf); [|reflexivity].
    now rewrite (scan_named_field_full_none py_float _ _ Hfields).
  - intros Hfields Hlabels.
    destruct (if Py.truthy pf
              then scan_named_field_full py_float (Py.or_empty pf) (fieldValues item)
              else None) as [x|] eqn:Enamed.
    + destruct (Py.truthy pf); [|discriminate].
      apply scan_named_field_full_some in Enamed.
      destruct Enamed as (v & Hin & Hv). exact (Hfields v x Hin Hv).
    + destruct (scan_any_field_full py_float (fieldValues item)) as [x|] eqn:Eany.
      * apply scan_any_field_full_some in Eany.
        destruct Eany as (v & Hin & Hv). exact (Hfields v x Hin Hv).
      * destruct (scan_labels_full (item_labels item)) as [x|] eqn:El.
        -- apply scan_labels_full_some in El.
           destruct El as (name & m & Hin & Hm & ->).
           destruct (re_search_decimal_match name m Hm) as [s Hs].
           exact (float_of_decimal_finite m s Hs (Hlabels name m Hin Hm)).
        -- split; [exact I | cbn; lra].
Qed.

Lemma C3_story_points_finite_nonneg_witness :
  _extract_story_points_full py_float_plain item_plain None = Finite 1
  /\ is_finite (_extract_story_points_full py_float_plain item_D
                                           (Some "Story Points"))
  /\ ge0 (_extract_story_points_full py_float_plain item_label_points None).
Proof.
  split; [|split].
  - apply (proj1 (C3_story_points_finite_nonneg py_float_plain item_plain None)).
    + intros v [].
    + intros name [<-|[<-|[]]]; reflexivity.
  - apply (proj2 (C3_story_points_finite_nonneg py_float_plain item_D
                    (Some "Story Points"))).
    + intros v x [<-|[<-|[]]] Hx; injection Hx as <-;
        (split; [exact I | vm_compute; discriminate]).
    + intros name m [].
  - apply (proj2 (C3_story_points_finite_nonneg py_float_plain item_label_points
                    None)).
    + intros v x [].
    + intros name m [<-|[<-|[]]] Hm; vm_compute in Hm;
        [discriminate | injection Hm as <-; vm_compute; reflexivity].
Defined.

(** A number field holding -3 resolves to -3 story points, which is not
    [>= 0]; the text "nan" resolves to nan, which is not [>= 0] either; the
    text "inf" resolves to an infinity, which is not finite; and a number
    field holding 0 resolves to 0, which is not positive. *)
Lemma C3_negative_nan_and_infinite_story_points :
  ~ ge0 (_extract_story_points_full py_float_plain item_negative
                                    (Some "Story Points"))
  /\ ~ (0 <= _extract_story_points Sample.float_plain item_negative
                                   (Some "Story Points"))
  /\ ~ ge0 (_extract_story_points_full py_float_plain item_nan
                                       (Some "Story Points"))
  /\ ~ is_finite (_extract_story_points_full py_float_plain item_inf
                                             (Some "Story Points"))
  /\ _extract_story_points_full py_float_plain item_zero (Some "Story Points")
     = Finite 0.
Proof.
  split; [|split; [|split; [|split]]].
  - intros H. vm_compute in H. apply H. reflexivity.
  - intros H. vm_compute in H. apply H. reflexivity.
  - intros H. exact H.
  - intros H. exact H.
  - reflexivity.
Qed.

(** C4.  [_extract_story_points] follows the resolution order: the first
    field value named [points_field] (letter case apart) that yields a number
    (its numeric value, else its text parsed as a float); otherwise the first
    field value in order that yields a number; otherwise the first decimal
    number of the first label that has one; otherwise 1.0.  With
    [points_field = "Story Points"], the field values Story Points = 3 and
    Priority = 5 resolve to 3, in either order. *)
Theorem C4_resolution_order :
  (forall (float_of_text : string -> option Q) (item : RawItem)
          (pf : option string),
      _extract_story_points float_of_text item pf
      = resolve_story_points float_of_text item pf)
  /\ (forall float_of_text : string -> option Q,
         _extract_story_points float_of_text item_D (Some "Story Points") = 3
         /\ _extract_story_points float_of_text item_D_swapped
                                  (Some "Story Points") = 3
         /\ _extract_story_points float_of_text item_D_swapped
                                  (Some "story points") = 3).
Proof.
  split.
  - exact _extract_story_points_resolve.
  - intros float_of_text. repeat split; reflexivity.
Qed.

(** ** Sprint membership and timestamps *)

Lemma scan_sprint_field_find (sf : option string) (fv : list FieldValue) :
  Py.truthy sf = true ->
  scan_sprint_field sf fv =
  match find (carries_sprint (Py.or_empty sf)) fv with
  | Some v => sprint_value v
  | None => None
  end.
Proof.
  intros Hsf. induction fv as [|v fv IH]; [reflexivity|].
  cbn [scan_sprint_field find]. rewrite Hsf. cbn [andb].
  unfold carries_sprint at 1, names_field.
  destruct (Py.truthy (fv_field v)); [|exact IH]. cbn [andb].
  destruct (Py.lower (Py.or_empty (fv_field v)) =? Py.lower (Py.or_empty sf))%string;
    [|exact IH].
  cbn [andb]. unfold sprint_value.
  destruct (fv_name v) as [[|c n]|] eqn:En;
    destruct (fv_text v) as [[|c' t]|] eqn:Et;
    cbn [Py.truthy Py.or_empty]; rewrite ?En, ?Et; cbn [Py.truthy];
    try reflexivity; exact IH.
Qed.

Lemma scan_sprint_field_unset (sf : option string) (fv : list FieldValue) :
  Py.truthy sf = false -> scan_sprint_field sf fv = None.
Proof.
  intros Hsf. induction fv as [|v fv IH]; [reflexivity|].
  cbn [scan_sprint_field]. rewrite Hsf. exact IH.
Qed.

Section Timestamps.

Variable float_of_text : string -> option Q.
Variable fromisoformat : string -> option datetime.

Lemma parse_timestamp_cases (s : option string) :
  (exists d, parse_timestamp fromisoformat s = Done d)
  \/ (parse_timestamp fromisoformat s = Raise ValueError
      /\ timestamp_fails fromisoformat s).
Proof.
  unfold parse_timestamp, timestamp_fails.
  destruct (Py.truthy s); [|left; eexists; reflexivity].
  destruct (fromisoformat (Py.replace "Z" "+00:00" (Py.or_empty s)));
    [left; eexists; reflexivity | right; split; [reflexivity | tauto]].
Qed.

Lemma parse_timestamp_fails (s : option string) :
  timestamp_fails fromisoformat s ->
  parse_timestamp fromisoformat s = Raise ValueError.
Proof.
  unfold parse_timestamp, timestamp_fails. intros [-> ->]. reflexivity.
Qed.

(** The [try] block always ends normally. *)
Lemma parse_timestamps_done (created closed : option string) :
  exists ts, parse_timestamps fromisoformat created closed = Done ts.
Proof.
  unfold parse_timestamps.
  destruct (parse_timestamp_cases created) as [[d ->]|[-> _]];
    [|eexists; reflexivity].
  destruct (parse_timestamp_cases closed) as [[d' ->]|[-> _]];
    eexists; reflexivity.
Qed.

(** One failure discards both timestamps. *)
Lemma parse_timestamps_fail (created closed : option string) :
  timestamp_fails fromisoformat created \/ timestamp_fails fromisoformat closed ->
  parse_timestamps fromisoformat created closed = Done (None, None).
Proof.
  unfold parse_timestamps. intros [H|H].
  - rewrite (parse_timestamp_fails _ H). reflexivity.
  - rewrite (parse_timestamp_fails _ H).
    destruct (parse_timestamp_cases created) as [[d ->]|[-> _]]; reflexivity.
Qed.

Lemma normalize_item_done (cfg : Config) (it : RawItem) :
  exists r, normalize_item float_of_text fromisoformat cfg it = Done r.
Proof.
  unfold normalize_item. destruct (content it) as [c|]; [|eexists; reflexivity].
  destruct (sprint_filter cfg it); cbn [negb]; [|eexists; reflexivity].
  destruct (parse_timestamps_done (createdAt c) (closedAt c)) as [ts ->].
  eexists; reflexivity.
Qed.

(** An item with a content payload is kept exactly when the sprint filter
    sets [include]. *)
Lemma included_iff_filter (cfg : Config) (it : RawItem) (c : Content) :
  content it = Some c ->
  included float_of_text fromisoformat cfg it <-> sprint_filter cfg it = true.
Proof.
  intros Hc. unfold included, normalize_item. rewrite Hc.
  destruct (sprint_filter cfg it); cbn [negb].
  - destruct (parse_timestamps_done (createdAt c) (closedAt c)) as [ts ->].
    split; [reflexivity | intros _; eexists; reflexivity].
  - split; [intros [e He]; discriminate | discriminate].
Qed.

Lemma process_items_done (cfg : Config) (its : list RawItem) :
  forall (filtered : list Entry) (total : Q),
  exists r, process_items float_of_text fromisoformat cfg its filtered total = Done r.
Proof.
  induction its as [|it its IH]; intros filtered total; cbn [process_items].
  - eexists; reflexivity.
  - destruct (normalize_item_done cfg it) as [[e|] ->]; cbn [bind]; apply IH.
Qed.

Lemma process_project_data_done (cfg : Config) (raw : option Response)
      (s e : datetime) :
  exists r, process_project_data float_of_text fromisoformat cfg raw s e = Done r.
Proof.
  unfold process_project_data.
  destruct raw as [[[data|]]|]; cbn [r_data]; try (eexists; reflexivity).
  destruct (if is_organization cfg then r_organization data else r_repository data)
    as [proj|]; [|eexists; reflexivity].
  destruct (process_items_done cfg (p_items proj) [] 0) as [r ->].
  eexists; reflexivity.
Qed.

End Timestamps.

Lemma find_is_some {A : Type} (p : A -> bool) (l : list A) (x : A) :
  In x l -> p x = true -> exists y : A, find p l = Some y.
Proof.
  intros Hin Hp. destruct (find p l) as [y|] eqn:E; [now exists y|].
  rewrite (find_none p l E x Hin) in Hp. discriminate.
Qed.

(** C5.  With [sprint_field] configured, an item that carries a content
    payload is kept if and only if the first of its field values that is
    named [sprint_field] (letter case apart) and carries a name or a text
    exists, [sprint_label] is configured, and [sprint_label] is, letter case
    apart, a substring of that name (or, without a name, that text).  When at
    most one field value of the item is named [sprint_field], this is: some
    field value is named [sprint_field], [sprint_label] is configured and is
    such a substring of its name or text.  An item none of whose field values
    is named [sprint_field] is dropped, whatever its labels. *)
Theorem C5_field_filter (float_of_text : string -> option Q)
        (fromisoformat : string -> option datetime)
        (cfg : Config) (it : RawItem) (c : Content) :
  content it = Some c ->
  Py.truthy (sprint_field cfg) = true ->
  (included float_of_text fromisoformat cfg it <->
   exists (v : FieldValue) (tag : string),
     find (carries_sprint (Py.or_empty (sprint_field cfg))) (fieldValues it) = Some v
     /\ sprint_value v = Some tag
     /\ Py.truthy (sprint_label cfg) = true
     /\ Py.contains (Py.lower (Py.or_empty (sprint_label cfg))) (Py.lower tag) = true)
  /\ ((forall u w : FieldValue,
          In u (fieldValues it) -> In w (fieldValues it) ->
          names_field (Py.or_empty (sprint_field cfg)) u = true ->
          names_field (Py.or_empty (sprint_field cfg)) w = true -> u = w) ->
      (included float_of_text fromisoformat cfg it <->
       exists (v : FieldValue) (tag : string),
         In v (fieldValues it)
         /\ names_field (Py.or_empty (sprint_field cfg)) v = true
         /\ sprint_value v = Some tag
         /\ Py.truthy (sprint_label cfg) = true
         /\ Py.contains (Py.lower (Py.or_empty (sprint_label cfg)))
                        (Py.lower tag) = true))
  /\ ((forall v : FieldValue,
          In v (fieldValues it) ->
          names_field (Py.or_empty (sprint_field cfg)) v = false) ->
      ~ included float_of_text fromisoformat cfg it).
Proof.
  intros Hc Hsf.
  assert (Hfirst :
    included float_of_text fromisoformat cfg it <->
    exists (v : FieldValue) (tag : string),
      find (carries_sprint (Py.or_empty (sprint_field cfg))) (fieldValues it) = Some v
      /\ sprint_value v = Some tag
      /\ Py.truthy (sprint_label cfg) = true
      /\ Py.contains (Py.lower (Py.or_empty (sprint_label cfg))) (Py.lower tag) = true).
  { rewrite (included_iff_filter float_of_text fromisoformat cfg it c Hc).
    unfold sprint_filter, _get_item_sprint. rewrite Hsf.
    rewrite (scan_sprint_field_find _ _ Hsf).
    destruct (find (carries_sprint (Py.or_empty (sprint_field cfg))) (fieldValues it))
      as [v|] eqn:Ef.
    - assert (Hv : exists tag, sprint_value v = Some tag).
      { apply find_some in Ef. destruct Ef as [_ Hv]. unfold carries_sprint in Hv.
        apply andb_true_iff in Hv. destruct Hv as [_ Hv].
        destruct (sprint_value v) as [tag|]; [now exists tag | discriminate]. }
      destruct Hv as [tag Htag]. rewrite Htag. split.
      + intros H. apply andb_true_iff in H. exists v, tag. tauto.
      + intros (v' & tag' & Hv' & Htag' & Hl & Hsub).
        injection Hv' as <-. rewrite Htag in Htag'. injection Htag' as <-.
        now rewrite Hl, Hsub.
    - split; [discriminate | intros (v' & tag' & Hv' & _); discriminate]. }
  split; [exact Hfirst|]. split.
  - intros Huniq. rewrite Hfirst. split.
    + intros (v & tag & Hfind & Htag & Hl & Hsub).
      apply find_some in Hfind. destruct Hfind as [Hin Hv].
      unfold carries_sprint in Hv. apply andb_true_iff in Hv.
      exists v, tag. tauto.
    + intros (v & tag & Hin & Hname & Htag & Hl & Hsub).
      assert (Hcar : carries_sprint (Py.or_empty (sprint_field cfg)) v = true)
        by (unfold carries_sprint; now rewrite Hname, Htag).
      destruct (find_is_some _ _ v Hin Hcar) as [w Hw].
      assert (w = v).
      { pose proof (find_some _ _ Hw) as [Hwin Hwc]. unfold carries_sprint in Hwc.
        apply andb_true_iff in Hwc. apply Huniq; tauto. }
      subst w. exists v, tag. tauto.
  - intros Hnone Hinc. apply Hfirst in Hinc.
    destruct Hinc as (v & tag & Hfind & _).
    apply find_some in Hfind. destruct Hfind as [Hin Hv]. unfold carries_sprint in Hv.
    rewrite (Hnone v Hin) in Hv. discriminate.
Qed.

Lemma C5_field_filter_witness :
  included Sample.float_plain Sample.iso_plain config_field item_field_in
  /\ ~ included Sample.float_plain Sample.iso_plain config_field item_B_in.
Proof.
  split.
  - apply (proj1 (proj2 (C5_field_filter Sample.float_plain Sample.iso_plain
                           config_field item_field_in (issue ["bug"] None)
                           eq_refl eq_refl))).
    + intros u w [<-|[]] [<-|[]] _ _. reflexivity.
    + eexists; eexists. split; [left; reflexivity|]. repeat split; reflexivity.
  - apply (proj2 (proj2 (C5_field_filter Sample.float_plain Sample.iso_plain
                           config_field item_B_in
                           (issue ["Sprint 3"; "bug"] None) eq_refl eq_refl))).
    intros v [].
Defined.

(** C9.  Without [sprint_field], an item that carries a content payload is
    kept if and only if [sprint_label] is unset or equals, letter case apart,
    one of the item's label names.  With [sprint_label = "Sprint 3"] the item
    labelled Sprint 3 and bug is kept and the item labelled Sprint 2 is
    dropped. *)
Theorem C9_label_filter (float_of_text : string -> option Q)
        (fromisoformat : string -> option datetime) :
  (forall (cfg : Config) (it : RawItem) (c : Content),
      content it = Some c ->
      Py.truthy (sprint_field cfg) = false ->
      (included float_of_text fromisoformat cfg it <->
       Py.truthy (sprint_label cfg) = false
       \/ exists lbl : string,
           In lbl (labels c)
           /\ Py.lower (Py.or_empty (sprint_label cfg)) = Py.lower lbl))
  /\ included float_of_text fromisoformat config_B item_B_in
  /\ ~ included float_of_text fromisoformat config_B item_B_out.
Proof.
  assert (Hgen : forall (cfg : Config) (it : RawItem) (c : Content),
      content it = Some c ->
      Py.truthy (sprint_field cfg) = false ->
      (included float_of_text fromisoformat cfg it <->
       Py.truthy (sprint_label cfg) = false
       \/ exists lbl : string,
           In lbl (labels c)
           /\ Py.lower (Py.or_empty (sprint_label cfg)) = Py.lower lbl)).
  { intros cfg it c Hc Hsf.
    rewrite (included_iff_filter float_of_text fromisoformat cfg it c Hc).
    unfold sprint_filter, _get_item_sprint, item_labels.
    rewrite Hsf, (scan_sprint_field_unset _ _ Hsf), Hc.
    destruct (Py.truthy (sprint_label cfg)).
    - rewrite existsb_exists. split.
      + intros (lbl & Hin & Heq). right. exists lbl.
        apply String.eqb_eq in Heq. tauto.
      + intros [H|(lbl & Hin & Heq)]; [discriminate|].
        exists lbl. split; [exact Hin | now apply String.eqb_eq].
    - split; [now left | reflexivity]. }
  split; [exact Hgen|]. split.
  - apply (Hgen config_B item_B_in (issue ["Sprint 3"; "bug"] None) eq_refl eq_refl).
    right. exists "Sprint 3". split; [now left | reflexivity].
  - intros H.
    apply (Hgen config_B item_B_out (issue ["Sprint 2"] None) eq_refl eq_refl) in H.
    destruct H as [H|(lbl & [<-|[]] & Heq)]; discriminate.
Qed.

Lemma C9_label_filter_witness :
  included Sample.float_plain Sample.iso_plain config_B item_B_in.
Proof.
  apply (proj1 (C9_label_filter Sample.float_plain Sample.iso_plain)
               config_B item_B_in (issue ["Sprint 3"; "bug"] None) eq_refl eq_refl).
  right. exists "Sprint 3". split; [left; reflexivity | reflexivity].
Defined.

Lemma sum_points_app (l1 l2 : list Entry) :
  sum_points (l1 ++ l2) == sum_points l1 + sum_points l2.
Proof.
  induction l1 as [|i l1 IH]; cbn [app sum_points]; [lra|]. rewrite IH. lra.
Qed.

(** The loop returns what it was given followed by the entries of the items,
    and the total it was given plus their points. *)
Lemma process_items_entries (float_of_text : string -> option Q)
      (fromisoformat : string -> option datetime) (cfg : Config)
      (its : list RawItem) :
  forall (filtered : list Entry) (total : Q),
  exists total' : Q,
    process_items float_of_text fromisoformat cfg its filtered total
    = Done (filtered ++ entries_of float_of_text fromisoformat cfg its, total')
    /\ total' == total + sum_points (entries_of float_of_text fromisoformat cfg its).
Proof.
  induction its as [|it its IH]; intros filtered total.
  - exists total. cbn [process_items entries_of flat_map sum_points].
    rewrite app_nil_r. split; [reflexivity | lra].
  - cbn [process_items]. unfold entries_of. cbn [flat_map].
    fold (entries_of float_of_text fromisoformat cfg its).
    destruct (normalize_item_done float_of_text fromisoformat cfg it) as [[e|] ->];
      cbn [bind].
    + destruct (IH (filtered ++ [e]) (total + story_points e)) as (total' & -> & Ht).
      exists total'. rewrite <- app_assoc. split; [reflexivity|].
      cbn [app sum_points]. rewrite Ht. lra.
    + cbn [app]. apply IH.
Qed.

(** C8.  [process_project_data] returns normally on every response: the
    [ValueError] of a timestamp is caught inside the loop.  When the creation
    or the closing timestamp of an item that passes the sprint filter is
    rejected by [fromisoformat], the item is still normalised, with
    [created_at] and [closed_at] both [None] and its story points resolved as
    usual, and the loop appends it to the list and adds its points to the
    total.  The snapshot returned for a project that holds such an item has
    that entry in its item list, between the entries of the items before it
    and those of the items after it, and its [total_points] is the sum of the
    points of all of these, the entry's included. *)
Theorem C8_bad_timestamp (float_of_text : string -> option Q)
        (fromisoformat : string -> option datetime) (cfg : Config) :
  (forall (raw : option Response) (s e : datetime),
      exists r, process_project_data float_of_text fromisoformat cfg raw s e = Done r)
  /\ (forall (it : RawItem) (c : Content) (rest : list RawItem)
             (filtered : list Entry) (total : Q),
         content it = Some c ->
         sprint_filter cfg it = true ->
         timestamp_fails fromisoformat (createdAt c)
         \/ timestamp_fails fromisoformat (closedAt c) ->
         exists entry : Entry,
           normalize_item float_of_text fromisoformat cfg it = Done (Some entry)
           /\ created_at entry = None
           /\ closed_at entry = None
           /\ story_points entry
              = _extract_story_points float_of_text it (points_field cfg)
           /\ process_items float_of_text fromisoformat cfg (it :: rest) filtered total
              = process_items float_of_text fromisoformat cfg rest
                              (filtered ++ [entry]) (total + story_points entry))
  /\ (forall (raw : option Response) (s e : datetime) (proj : Project)
             (before after : list RawItem) (it : RawItem) (c : Content),
         selected_project cfg raw = Some proj ->
         p_items proj = before ++ it :: after ->
         content it = Some c ->
         sprint_filter cfg it = true ->
         timestamp_fails fromisoformat (createdAt c)
         \/ timestamp_fails fromisoformat (closedAt c) ->
         exists (pdata : ProjectData) (entry : Entry),
           process_project_data float_of_text fromisoformat cfg raw s e
           = Done (Some pdata)
           /\ items pdata
              = entries_of float_of_text fromisoformat cfg before
                ++ entry :: entries_of float_of_text fromisoformat cfg after
           /\ In entry (items pdata)
           /\ created_at entry = None
           /\ closed_at entry = None
           /\ story_points entry
              = _extract_story_points float_of_text it (points_field cfg)
           /\ total_points pdata
              == sum_points (entries_of float_of_text fromisoformat cfg before)
                 + story_points entry
                 + sum_points (entries_of float_of_text fromisoformat cfg after)).
Proof.
  assert (Hitem : forall (it : RawItem) (c : Content),
      content it = Some c ->
      sprint_filter cfg it = true ->
      timestamp_fails fromisoformat (createdAt c)
      \/ timestamp_fails fromisoformat (closedAt c) ->
      normalize_item float_of_text fromisoformat cfg it
      = Done (Some {| title := Py.or_empty (c_title c);
                      story_points :=
                        _extract_story_points float_of_text it (points_field cfg);
                      created_at := None; closed_at := None;
                      state := c_state c |})).
  { intros it c Hc Hf Hfail. unfold normalize_item. rewrite Hc, Hf. cbn [negb].
    rewrite (parse_timestamps_fail fromisoformat _ _ Hfail). reflexivity. }
  split; [intros raw s e; apply process_project_data_done|]. split.
  - intros it c rest filtered total Hc Hf Hfail.
    pose proof (Hitem it c Hc Hf Hfail) as Hn.
    eexists. split; [exact Hn|]. repeat split.
    cbn [process_items]. rewrite Hn. reflexivity.
  - intros raw s e proj before after it c Hsel Hitems Hc Hf Hfail.
    pose proof (Hitem it c Hc Hf Hfail) as Hn.
    assert (Hent : entries_of float_of_text fromisoformat cfg (p_items proj)
                   = entries_of float_of_text fromisoformat cfg before
                     ++ {| title := Py.or_empty (c_title c);
                           story_points :=
                             _extract_story_points float_of_text it (points_field cfg);
                           created_at := None; closed_at := None;
                           state := c_state c |}
                        :: entries_of float_of_text fromisoformat cfg after).
    { rewrite Hitems. unfold entries_of. rewrite flat_map_app. cbn [flat_map].
      rewrite Hn. reflexivity. }
    unfold selected_project in Hsel. unfold process_project_data.
    destruct raw as [[[data|]]|]; cbn [r_data] in Hsel |- *; try discriminate.
    rewrite Hsel.
    destruct (process_items_entries float_of_text fromisoformat cfg (p_items proj)
                                    [] 0) as (total' & -> & Htot).
    cbn [bind fst snd app]. rewrite Hent in Htot |- *.
    eexists. eexists. split; [reflexivity|].
    cbn [items total_points created_at closed_at story_points].
    split; [reflexivity|]. split; [apply in_elt|].
    split; [reflexivity|]. split; [reflexivity|]. split; [reflexivity|].
    rewrite Htot, sum_points_app. cbn [sum_points story_points]. lra.
Qed.

Lemma C8_bad_timestamp_witness :
  exists (pdata : ProjectData) (entry : Entry),
    process_project_data Sample.float_plain Sample.iso_plain config_B
      (Some response_sample) (datetime_of 2024 1 1 0 0 0) (datetime_of 2024 1 5 0 0 0)
    = Done (Some pdata)
    /\ In entry (items pdata)
    /\ created_at entry = None /\ closed_at entry = None
    /\ story_points entry = 3.
Proof.
  destruct (proj2 (proj2 (C8_bad_timestamp Sample.float_plain Sample.iso_plain
                            config_B))
                  (Some response_sample) (datetime_of 2024 1 1 0 0 0)
                  (datetime_of 2024 1 5 0 0 0) project_sample
                  [item_B_in; item_no_content; item_B_out] [] item_bad_timestamp
                  (issue ["Sprint 3"] (Some "yesterday"))
                  eq_refl eq_refl eq_refl eq_refl
                  (or_intror (conj eq_refl eq_refl)))
    as (pdata & entry & Hp & _ & Hin & Hcr & Hcl & Hsp & _).
  exists pdata, entry. repeat split; assumption.
Defined.

(** ** Output paths *)

Lemma prefix_cons (c1 c2 : ascii) (s1 s2 : string) :
  String.prefix (String c1 s1) (String c2 s2) = Ascii.eqb c1 c2 && String.prefix s1 s2.
Proof.
  cbn [String.prefix].
  destruct (ascii_dec c1 c2) as [->|Hne].
  - now rewrite Ascii.eqb_refl.
  - destruct (Ascii.eqb_spec c1 c2); [contradiction | reflexivity].
Qed.

Lemma prefix_png_extend (c : ascii) (s : string) :
  String.prefix ".png" (String c s) = false ->
  String.prefix ".png" (String c s ++ ".png")%string = false.
Proof.
  destruct s as [|c1 [|c2 [|c3 s']]];
    cbn [String.append]; rewrite ?prefix_cons; cbn [String.prefix];
    rewrite ?andb_true_r;
    repeat match goal with
           | |- context [Ascii.eqb ?a ?b] =>
               is_var b; destruct (Ascii.eqb_spec a b); subst; cbn [andb]
           end;
    try (intros _; reflexivity); trivial.
  destruct s'; trivial.
Qed.

Lemma replace_png_suffix (stem : string) :
  Py.contains ".png" stem = false ->
  Py.replace ".png" ".html" (stem ++ ".png")%string = (stem ++ ".html")%string.
Proof.
  unfold Py.replace.
  induction stem as [|c stem IH]; intros Hno; [reflexivity|].
  cbn [Py.contains] in Hno. apply orb_false_iff in Hno. destruct Hno as [Hp Hno].
  change (String c stem ++ ".png")%string with (String c (stem ++ ".png")%string).
  cbn [Py.replace_from].
  change (String c (stem ++ ".png")%string) with (String c stem ++ ".png")%string.
  rewrite (prefix_png_extend _ _ Hp).
  cbn [String.append]. f_equal. now apply IH.
Qed.

Lemma truthy_append_png (stem : string) :
  Py.truthy (Some (stem ++ ".png")%string) = true.
Proof. destruct stem; reflexivity. Qed.

(** C10 (as amended).  For a configured [save_path] that ends in ".png" and
    has no other occurrence of ".png", the plotly renderer writes the HTML
    document at the same path with the extension replaced by ".html", and
    [save_path] itself is the path given to the two image exports: to
    [plt.savefig] by the matplotlib renderer, and to [fig.write_image] by the
    plotly renderer after the HTML document; when that export fails the
    failure is caught and plotly writes the HTML document only.  For every
    configured [save_path] the path of the HTML document is
    [save_path.replace(".png", ".html")]. *)
Theorem C10_output_paths (write_image_ok : bool) (data : Burndown)
        (name : option string) :
  (forall (c : ascii) (p : string),
      create_plotly_chart write_image_ok data name (Some (String c p))
      = WriteHtml (Py.replace ".png" ".html" (String c p))
        :: (if write_image_ok then [WriteImage (String c p)] else []) ++ [FigShow]
      /\ create_matplotlib_chart data name (Some (String c p))
         = [Savefig (String c p); PltShow])
  /\ (forall stem : string,
         Py.contains ".png" stem = false ->
         create_plotly_chart write_image_ok data name (Some (stem ++ ".png")%string)
         = WriteHtml (stem ++ ".html")%string
           :: (if write_image_ok then [WriteImage (stem ++ ".png")%string] else [])
              ++ [FigShow]
         /\ create_matplotlib_chart data name (Some (stem ++ ".png")%string)
            = [Savefig (stem ++ ".png")%string; PltShow]).
Proof.
  split.
  - intros c p. split; reflexivity.
  - intros stem Hno. unfold create_plotly_chart, create_matplotlib_chart.
    rewrite truthy_append_png. cbn [Py.or_empty].
    rewrite (replace_png_suffix stem Hno). split; reflexivity.
Qed.

Lemma C10_output_paths_witness :
  create_plotly_chart true (series_of scenario_A None) (Some "Board")
                      (Some "out/burndown.png")
  = [WriteHtml "out/burndown.html"; WriteImage "out/burndown.png"; FigShow].
Proof.
  exact (proj1 (proj2 (C10_output_paths true (series_of scenario_A None)
                                        (Some "Board"))
                      "out/burndown" eq_refl)).
Defined.

(** With [save_path = "chart.jpg"] the HTML document is written at
    "chart.jpg" itself, not at "chart.html". *)
Lemma C10_jpg_path_not_replaced :
  create_plotly_chart true (series_of scenario_A None) (Some "Board")
                      (Some "chart.jpg")
  = [WriteHtml "chart.jpg"; WriteImage "chart.jpg"; FigShow]
  /\ ~ In (WriteHtml "chart.html")
          (create_plotly_chart true (series_of scenario_A None) (Some "Board")
                               (Some "chart.jpg")).
Proof.
  split; [reflexivity|].
  intros [H|[H|[H|[]]]]; discriminate H.
Qed.

(** ** The driver *)

(** C2 (the code departs from it).  For a response whose project is found,
    [process_project_data] returns a snapshot, so the check on line 290
    never fires; with no item matching the sprint filter the run goes on
    with an empty item list and renders both charts. *)
Theorem C2_empty_filter_does_not_abort :
  (exists r : RunResult,
      run Sample.float_plain Sample.iso_plain 5 true config_B (Some response_no_match)
      = Done r
      /\ items (project r) = []
      /\ events r = [Savefig "burndown.png"; PltShow; WriteHtml "burndown.html";
                     WriteImage "burndown.png"; FigShow])
  /\ (forall (float_of_text : string -> option Q)
             (fromisoformat : string -> option datetime)
             (cfg : Config) (proj : Project) (s e : datetime),
         exists pdata : ProjectData,
           process_project_data float_of_text fromisoformat cfg
             (Some {| r_data := Some {| r_organization := Some proj;
                                        r_repository := Some proj |} |}) s e
           = Done (Some pdata)).
Proof.
  split.
  - eexists. split; [vm_compute; reflexivity|]. split; reflexivity.
  - intros float_of_text fromisoformat cfg proj s e.
    unfold process_project_data; cbn [r_data r_organization r_repository].
    destruct (is_organization cfg);
      destruct (process_items_done float_of_text fromisoformat cfg (p_items proj) [] 0)
        as [r ->]; eexists; reflexivity.
Qed.

(** * Further properties *)

(** ** The normalised list and its total *)

Section Normalised.

Variable float_of_text : string -> option Q.
Variable fromisoformat : string -> option datetime.
Variable cfg : Config.

(** What the loop body does with one item. *)
Lemma normalize_item_kept (it : RawItem) :
  if kept cfg it
  then exists entry : Entry,
      normalize_item float_of_text fromisoformat cfg it = Done (Some entry)
      /\ title entry = item_title it
      /\ story_points entry
         = _extract_story_points float_of_text it (points_field cfg)
  else normalize_item float_of_text fromisoformat cfg it = Done None.
Proof.
  unfold kept, normalize_item, item_title.
  destruct (content it) as [c|]; [|reflexivity].
  destruct (sprint_filter cfg it); cbn [negb]; [|reflexivity].
  destruct (parse_timestamps_done fromisoformat (createdAt c) (closedAt c))
    as [ts ->].
  eexists. split; [reflexivity|]. split; reflexivity.
Qed.

(** The loop appends one entry per kept item, in order, and adds its points
    to the running total. *)
Lemma process_items_spec (its : list RawItem) :
  forall (filtered : list Entry) (total : Q),
  exists (new : list Entry) (total' : Q),
    process_items float_of_text fromisoformat cfg its filtered total
    = Done (filtered ++ new, total')
    /\ total' == total + sum_points new
    /\ map title new = map item_title (filter (kept cfg) its)
    /\ map story_points new
       = map (fun it => _extract_story_points float_of_text it (points_field cfg))
             (filter (kept cfg) its).
Proof.
  induction its as [|it its IH]; intros filtered total.
  - exists [], total. cbn [process_items sum_points filter map].
    rewrite app_nil_r. repeat split; try reflexivity. lra.
  - cbn [process_items filter].
    pose proof (normalize_item_kept it) as Hit.
    destruct (kept cfg it).
    + destruct Hit as (entry & -> & Ht & Hsp). cbn [bind].
      destruct (IH (filtered ++ [entry]) (total + story_points entry))
        as (new & total' & -> & Htot & Htitles & Hpoints).
      exists (entry :: new), total'. rewrite <- app_assoc. cbn [app map sum_points].
      repeat split; try reflexivity.
      * rewrite Htot. lra.
      * now rewrite Ht, Htitles.
      * now rewrite Hsp, Hpoints.
    + rewrite Hit. cbn [bind]. apply IH.
Qed.

Lemma process_project_data_selected (raw : option Response) (s e : datetime) :
  match selected_project cfg raw with
  | Some proj =>
      exists pdata : ProjectData,
        process_project_data float_of_text fromisoformat cfg raw s e
        = Done (Some pdata)
        /\ project_name pdata = p_title proj
        /\ pd_sprint_start pdata = s /\ pd_sprint_end pdata = e
        /\ total_points pdata == sum_points (items pdata)
        /\ map title (items pdata) = map item_title (filter (kept cfg) (p_items proj))
        /\ map story_points (items pdata)
           = map (fun it => _extract_story_points float_of_text it (points_field cfg))
                 (filter (kept cfg) (p_items proj))
  | None =>
      process_project_data float_of_text fromisoformat cfg raw s e = Done None
  end.
Proof.
  unfold selected_project, process_project_data.
  destruct raw as [[[data|]]|]; cbn [r_data]; try reflexivity.
  destruct (if is_organization cfg then r_organization data else r_repository data)
    as [proj|]; [|reflexivity].
  destruct (process_items_spec (p_items proj) [] 0)
    as (new & total' & -> & Htot & Htitles & Hpoints).
  eexists. split; [reflexivity|].
  cbn [bind project_name items total_points pd_sprint_start pd_sprint_end fst snd app].
  repeat split; try assumption. rewrite Htot. lra.
Qed.

End Normalised.

(** X1.  Whenever [process_project_data] returns a snapshot, its
    [total_points] is the sum of the story points of its items. *)
Theorem X1_total_is_sum_of_items (float_of_text : string -> option Q)
        (fromisoformat : string -> option datetime) (cfg : Config)
        (raw : option Response) (s e : datetime) (pdata : ProjectData) :
  process_project_data float_of_text fromisoformat cfg raw s e = Done (Some pdata) ->
  total_points pdata == sum_points (items pdata).
Proof.
  intros H.
  pose proof (process_project_data_selected float_of_text fromisoformat cfg raw s e)
    as Hsel.
  destruct (selected_project cfg raw) as [proj|].
  - destruct Hsel as (pd & Hpd & _ & _ & _ & Hsum & _).
    rewrite Hpd in H. injection H as <-. exact Hsum.
  - rewrite Hsel in H. discriminate.
Qed.

Lemma X1_total_is_sum_of_items_witness :
  exists pdata : ProjectData,
    process_project_data Sample.float_plain Sample.iso_plain config_B
      (Some response_sample) (datetime_of 2024 1 1 0 0 0) (datetime_of 2024 1 5 0 0 0)
    = Done (Some pdata)
    /\ total_points pdata == sum_points (items pdata).
Proof.
  eexists. split; [vm_compute; reflexivity|].
  apply (X1_total_is_sum_of_items Sample.float_plain Sample.iso_plain config_B
           (Some response_sample) (datetime_of 2024 1 1 0 0 0)
           (datetime_of 2024 1 5 0 0 0)).
  vm_compute. reflexivity.
Defined.

(** X2.  When the response holds a project under the key chosen by
    [project_type], the snapshot has one entry per item that carries a
    content payload and passes the sprint filter, in the order of the
    response: the titles and the story points of the entries are those of the
    kept items, and the project name is the project title.  An item without a
    content payload never yields an entry. *)
Theorem X2_items_are_the_kept_items (float_of_text : string -> option Q)
        (fromisoformat : string -> option datetime) (cfg : Config)
        (raw : option Response) (s e : datetime) (proj : Project) :
  selected_project cfg raw = Some proj ->
  exists pdata : ProjectData,
    process_project_data float_of_text fromisoformat cfg raw s e = Done (Some pdata)
    /\ project_name pdata = p_title proj
    /\ List.length (items pdata) = List.length (filter (kept cfg) (p_items proj))
    /\ map title (items pdata) = map item_title (filter (kept cfg) (p_items proj))
    /\ map story_points (items pdata)
       = map (fun it => _extract_story_points float_of_text it (points_field cfg))
             (filter (kept cfg) (p_items proj))
    /\ (forall it : RawItem, content it = None -> kept cfg it = false).
Proof.
  intros Hsel.
  pose proof (process_project_data_selected float_of_text fromisoformat cfg raw s e)
    as H.
  rewrite Hsel in H. destruct H as (pd & Hpd & Hname & _ & _ & _ & Ht & Hp).
  exists pd. repeat split; try assumption.
  - rewrite <- (length_map title), Ht, length_map. reflexivity.
  - intros it Hc. unfold kept. now rewrite Hc.
Qed.

Lemma X2_items_are_the_kept_items_witness :
  exists pdata : ProjectData,
    process_project_data Sample.float_plain Sample.iso_plain config_B
      (Some response_sample) (datetime_of 2024 1 1 0 0 0) (datetime_of 2024 1 5 0 0 0)
    = Done (Some pdata)
    /\ List.length (items pdata) = 2%nat.
Proof.
  destruct (X2_items_are_the_kept_items Sample.float_plain Sample.iso_plain config_B
              (Some response_sample) (datetime_of 2024 1 1 0 0 0)
              (datetime_of 2024 1 5 0 0 0) project_sample eq_refl)
    as (pd & Hpd & _ & Hlen & _).
  exists pd. split; [exact Hpd | exact Hlen].
Defined.

(** ** The sprint filter *)

Lemma filter_none {A : Type} (p : A -> bool) (l : list A) :
  (forall x : A, p x = false) -> filter p l = [].
Proof.
  intros Hp. induction l as [|x l IH]; [reflexivity|].
  cbn [filter]. now rewrite Hp.
Qed.

Lemma kept_needs_label (cfg : Config) (it : RawItem) :
  Py.truthy (sprint_field cfg) = true ->
  Py.truthy (sprint_label cfg) = false ->
  kept cfg it = false.
Proof.
  intros Hsf Hsl. unfold kept, sprint_filter. rewrite Hsf, Hsl.
  destruct (content it); [|reflexivity].
  destruct (_get_item_sprint it (sprint_field cfg)); reflexivity.
Qed.

(** X3.  With [sprint_field] configured and [sprint_label] unset (absent or
    empty), no item passes the filter: every snapshot has an empty item
    list. *)
Theorem X3_field_without_label_keeps_nothing
        (float_of_text : string -> option Q)
        (fromisoformat : string -> option datetime) (cfg : Config)
        (raw : option Response) (s e : datetime) (pdata : ProjectData) :
  Py.truthy (sprint_field cfg) = true ->
  Py.truthy (sprint_label cfg) = false ->
  process_project_data float_of_text fromisoformat cfg raw s e = Done (Some pdata) ->
  items pdata = [].
Proof.
  intros Hsf Hsl H.
  pose proof (process_project_data_selected float_of_text fromisoformat cfg raw s e)
    as Hsel.
  destruct (selected_project cfg raw) as [proj|].
  - destruct Hsel as (pd & Hpd & _ & _ & _ & _ & Ht & _).
    rewrite Hpd in H. injection H as <-.
    rewrite (filter_none (kept cfg)) in Ht
      by (intros it; now apply kept_needs_label).
    now apply map_eq_nil in Ht.
  - rewrite Hsel in H. discriminate.
Qed.

Lemma X3_field_without_label_keeps_nothing_witness :
  exists pdata : ProjectData,
    process_project_data Sample.float_plain Sample.iso_plain config_no_label
      (Some response_sample) (datetime_of 2024 1 1 0 0 0) (datetime_of 2024 1 5 0 0 0)
    = Done (Some pdata)
    /\ items pdata = [].
Proof.
  destruct (process_project_data Sample.float_plain Sample.iso_plain config_no_label
              (Some response_sample) (datetime_of 2024 1 1 0 0 0)
              (datetime_of 2024 1 5 0 0 0)) as [[pdata|]| |] eqn:H;
    try (vm_compute in H; discriminate).
  exists pdata. split; [reflexivity|].
  exact (X3_field_without_label_keeps_nothing Sample.float_plain Sample.iso_plain
           config_no_label (Some response_sample) (datetime_of 2024 1 1 0 0 0)
           (datetime_of 2024 1 5 0 0 0) pdata eq_refl eq_refl H).
Defined.

(** Two optional strings with the same lower-case form are both set or both
    unset. *)
Lemma lower_view (a b : option string) :
  option_map Py.lower a = option_map Py.lower b ->
  Py.truthy a = Py.truthy b
  /\ Py.lower (Py.or_empty a) = Py.lower (Py.or_empty b).
Proof.
  destruct a as [[|c s]|], b as [[|c' s']|]; cbn; intros H;
    try discriminate; split; try reflexivity;
    injection H; intros; subst; congruence.
Qed.

Lemma scan_sprint_field_lower (sf sf' : option string) (fv : list FieldValue) :
  option_map Py.lower sf = option_map Py.lower sf' ->
  scan_sprint_field sf fv = scan_sprint_field sf' fv.
Proof.
  intros H. apply lower_view in H. destruct H as [Ht Hl].
  induction fv as [|v fv IH]; [reflexivity|].
  cbn [scan_sprint_field]. now rewrite Ht, Hl, IH.
Qed.

Lemma scan_named_field_lower (float_of_text : string -> option Q)
      (pf pf' : string) (fv : list FieldValue) :
  Py.lower pf = Py.lower pf' ->
  scan_named_field float_of_text pf fv = scan_named_field float_of_text pf' fv.
Proof.
  intros H. induction fv as [|v fv IH]; [reflexivity|].
  cbn [scan_named_field]. now rewrite H, IH.
Qed.

(** X4.  The configuration is read letter case apart: two configurations
    whose [sprint_label] and [sprint_field] have the same lower-case forms
    keep the same items, and two [points_field] names with the same
    lower-case form resolve the same story points. *)
Theorem X4_configuration_is_case_insensitive
        (float_of_text : string -> option Q) :
  (forall (cfg cfg' : Config) (it : RawItem),
      option_map Py.lower (sprint_label cfg) = option_map Py.lower (sprint_label cfg') ->
      option_map Py.lower (sprint_field cfg) = option_map Py.lower (sprint_field cfg') ->
      kept cfg it = kept cfg' it)
  /\ (forall (item : RawItem) (pf pf' : option string),
         option_map Py.lower pf = option_map Py.lower pf' ->
         _extract_story_points float_of_text item pf
         = _extract_story_points float_of_text item pf').
Proof.
  split.
  - intros cfg cfg' it Hl Hf.
    unfold kept, sprint_filter, _get_item_sprint.
    rewrite (scan_sprint_field_lower _ _ (fieldValues it) Hf).
    apply lower_view in Hl. destruct Hl as [Hlt Hll].
    apply lower_view in Hf. destruct Hf as [Hft _].
    now rewrite Hlt, Hll, Hft.
  - intros item pf pf' H. apply lower_view in H. destruct H as [Ht Hl].
    unfold _extract_story_points.
    now rewrite Ht, (scan_named_field_lower float_of_text _ _ (fieldValues item) Hl).
Qed.

Lemma X4_configuration_is_case_insensitive_witness :
  kept config_field item_field_in
  = kept {| project_type := None; sprint_start := "2024-01-01";
            sprint_end := "2024-01-05"; sprint_label := Some "SPRINT 3";
            sprint_field := Some "sPrInT"; points_field := None;
            planned_points := None; save_path := None; chart_type := None |}
         item_field_in
  /\ _extract_story_points Sample.float_plain item_D (Some "Story Points")
     = _extract_story_points Sample.float_plain item_D (Some "STORY points").
Proof.
  split.
  - apply (proj1 (X4_configuration_is_case_insensitive Sample.float_plain));
      reflexivity.
  - apply (proj2 (X4_configuration_is_case_insensitive Sample.float_plain));
      reflexivity.
Defined.

(** X5.  Without a [sprint_field_name], [_get_item_sprint] returns the list
    of label names.  A string result is never empty and is the name or the
    text of a field value named [sprint_field_name], letter case apart. *)
Theorem X5_get_item_sprint_result (item : RawItem) (sfn : option string) :
  (Py.truthy sfn = false ->
   _get_item_sprint item sfn = TagLabels (item_labels item))
  /\ (forall s : string,
         _get_item_sprint item sfn = TagStr s ->
         s <> ""
         /\ Py.truthy sfn = true
         /\ exists v : FieldValue,
             In v (fieldValues item)
             /\ names_field (Py.or_empty sfn) v = true
             /\ (fv_name v = Some s \/ fv_text v = Some s)).
Proof.
  unfold _get_item_sprint. split.
  - intros H. now rewrite (scan_sprint_field_unset _ _ H).
  - intros s H.
    destruct (Py.truthy sfn) eqn:Ht;
      [|rewrite (scan_sprint_field_unset _ _ Ht) in H; discriminate].
    rewrite (scan_sprint_field_find _ _ Ht) in H.
    destruct (find (carries_sprint (Py.or_empty sfn)) (fieldValues item))
      as [v|] eqn:Ef; [|discriminate].
    apply find_some in Ef. destruct Ef as [Hin Hv].
    unfold carries_sprint in Hv. apply andb_true_iff in Hv. destruct Hv as [Hn _].
    destruct (sprint_value v) as [t|] eqn:Ev; [|discriminate].
    injection H as <-. unfold sprint_value in Ev.
    destruct (fv_name v) as [[|c n]|] eqn:En; cbn [Py.truthy] in Ev;
      try (injection Ev as <-; split; [discriminate|]; split; [reflexivity|];
           exists v; repeat split; try assumption; now left);
      destruct (fv_text v) as [[|c' x]|] eqn:Et; cbn [Py.truthy] in Ev;
      try discriminate;
      injection Ev as <-; (split; [discriminate|]); (split; [reflexivity|]);
      exists v; repeat split; try assumption; now right.
Qed.

Lemma X5_get_item_sprint_result_witness :
  _get_item_sprint item_B_in None = TagLabels ["Sprint 3"; "bug"]
  /\ "SPRINT 3 (Jan)" <> "".
Proof.
  split.
  - exact (proj1 (X5_get_item_sprint_result item_B_in None) eq_refl).
  - exact (proj1 (proj2 (X5_get_item_sprint_result item_field_in (Some "Sprint"))
                        "SPRINT 3 (Jan)" eq_refl)).
Defined.

(** ** Timestamps *)

Lemma replace_Z_suffix (stem : string) :
  Py.contains "Z" stem = false ->
  Py.replace "Z" "+00:00" (stem ++ "Z")%string = (stem ++ "+00:00")%string.
Proof.
  unfold Py.replace.
  induction stem as [|c stem IH]; intros Hno; [reflexivity|].
  cbn [Py.contains] in Hno. apply orb_false_iff in Hno. destruct Hno as [Hp Hno].
  rewrite prefix_cons in Hp.
  assert (Hc : Ascii.eqb "Z" c = false).
  { destruct (Ascii.eqb "Z" c); [|reflexivity]. destruct stem; discriminate Hp. }
  change (String c stem ++ "Z")%string with (String c (stem ++ "Z")%string).
  cbn [Py.replace_from]. rewrite prefix_cons, Hc. cbn [andb String.append].
  f_equal. now apply IH.
Qed.

Lemma replace_Z_absent (s : string) :
  Py.contains "Z" s = false -> Py.replace "Z" "+00:00" s = s.
Proof.
  unfold Py.replace.
  induction s as [|c s IH]; intros Hno; [reflexivity|].
  cbn [Py.contains] in Hno. apply orb_false_iff in Hno. destruct Hno as [Hp Hno].
  cbn [Py.replace_from]. rewrite Hp. f_equal. now apply IH.
Qed.

(** X6.  A timestamp that ends in its only "Z" reaches [fromisoformat] with
    that "Z" replaced by "+00:00": it is parsed as UTC, and rejected exactly
    when [fromisoformat] rejects the rewritten text.  A non-empty timestamp
    without "Z" reaches [fromisoformat] unchanged. *)
Theorem X6_Z_suffix_becomes_utc_offset (fromisoformat : string -> option datetime) :
  (forall stem : string,
      Py.contains "Z" stem = false ->
      parse_timestamp fromisoformat (Some (stem ++ "Z")%string)
      = match fromisoformat (stem ++ "+00:00")%string with
        | Some d => Done (Some d)
        | None => Raise ValueError
        end)
  /\ (forall (c : ascii) (s : string),
         Py.contains "Z" (String c s) = false ->
         parse_timestamp fromisoformat (Some (String c s))
         = match fromisoformat (String c s) with
           | Some d => Done (Some d)
           | None => Raise ValueError
           end).
Proof.
  split.
  - intros stem Hno. unfold parse_timestamp.
    assert (Ht : Py.truthy (Some (stem ++ "Z")%string) = true)
      by (destruct stem; reflexivity).
    rewrite Ht. cbn [Py.or_empty]. rewrite (replace_Z_suffix stem Hno).
    destruct (fromisoformat (stem ++ "+00:00")%string); reflexivity.
  - intros c s Hno. unfold parse_timestamp. cbn [Py.truthy Py.or_empty].
    rewrite (replace_Z_absent _ Hno).
    destruct (fromisoformat (String c s)); reflexivity.
Qed.

Lemma X6_Z_suffix_becomes_utc_offset_witness :
  parse_timestamp Sample.iso_plain (Some "2024-01-03T10:00:00Z")
  = Done (Some (datetime_of 2024 1 3 10 0 0))
  /\ parse_timestamp Sample.iso_plain (Some "2024-01-03")
     = Done (Some (datetime_of 2024 1 3 0 0 0)).
Proof.
  split.
  - exact (proj1 (X6_Z_suffix_becomes_utc_offset Sample.iso_plain)
                 "2024-01-03T10:00:00" eq_refl).
  - exact (proj2 (X6_Z_suffix_becomes_utc_offset Sample.iso_plain)
                 "2"%char "024-01-03" eq_refl).
Defined.

(** ** More on the burndown series *)

Lemma max0_nonpos (x : Q) : x <= 0 -> Py.max0 x = 0.
Proof.
  intros H. unfold Py.max0. apply Qle_bool_iff in H. now rewrite H.
Qed.

Lemma max0_compat (x y : Q) : x == y -> Py.max0 x == Py.max0 y.
Proof.
  intros H. apply Qle_antisym; apply max0_mono; lra.
Qed.

Lemma days_between_add_days (s : datetime) (i : Z) :
  days_between (add_days s i) s = i.
Proof.
  unfold days_between, add_days, us_per_day; cbn [ticks].
  replace (ticks s + i * 86400000000 - ticks s)%Z with (i * 86400000000)%Z by lia.
  apply Z.div_mul. lia.
Qed.

Lemma iterations_bound (s e : datetime) (j : nat) :
  (j < iterations s e)%nat -> (Z.of_nat j <= days_between e s)%Z.
Proof. unfold iterations. lia. Qed.

Lemma date_seq_not_after_end (s e d : datetime) :
  In d (date_seq s (iterations s e)) -> (ticks d <= ticks e)%Z.
Proof.
  intros Hd. apply date_seq_In in Hd. destruct Hd as (i & Hi & ->).
  apply iterations_bound in Hi.
  unfold add_days, days_between, us_per_day in *; cbn [ticks].
  Z.div_mod_to_equations. nia.
Qed.

Lemma date_seq_not_before_start (s d : datetime) (k : nat) :
  In d (date_seq s k) -> (date s <= date d)%Z.
Proof.
  intros Hd. apply date_seq_In in Hd. destruct Hd as (i & _ & ->).
  rewrite date_add_days. lia.
Qed.

Lemma date_mono (a b : datetime) : (ticks a <= ticks b)%Z -> (date a <= date b)%Z.
Proof.
  unfold date, us_per_day. intros H. apply Z.div_le_mono; lia.
Qed.

(** The ideal value falls as the days go by, for a total that is not
    negative. *)
Lemma ideal_step_order (total D ki kj : Q) :
  0 <= total -> 1 <= D -> ki <= kj ->
  Py.max0 (total - total / D * kj) <= Py.max0 (total - total / D * ki).
Proof.
  intros Htotal HD Hij.
  assert (Hdaily : total / D * D == total) by (field; lra).
  set (daily := total / D) in *.
  assert (Hge : 0 <= daily) by nra.
  apply max0_mono. nra.
Qed.

(** X7.  When the total is not negative, the ideal sequence is
    non-increasing, starts at the total, and every ideal value lies between 0
    and the total. *)
Theorem X7_ideal_non_increasing (pdata : ProjectData) (planned : option Q)
        (extra : nat) :
  0 <= planned_total pdata planned ->
  exists r : Burndown,
    calculate_burndown_data
      (iterations (pd_sprint_start pdata) (pd_sprint_end pdata) + extra)
      pdata planned = Done r
    /\ non_increasing (ideal r)
    /\ Forall (fun x : Q => 0 <= x /\ x <= planned_total pdata planned) (ideal r)
    /\ (dt_leb (pd_sprint_start pdata) (pd_sprint_end pdata) = true ->
        nth 0 (ideal r) 0 == planned_total pdata planned).
Proof.
  intros Htotal. exists (series_of pdata planned).
  split; [apply calculate_burndown_data_run|].
  unfold series_of; cbn [ideal].
  set (s := pd_sprint_start pdata). set (e := pd_sprint_end pdata).
  set (total := planned_total pdata planned) in *.
  assert (HD : 1 <= inject_Z (Z.max 1 (days_between e s)))
    by (change 1 with (inject_Z 1); rewrite <- Zle_Qle; lia).
  assert (Hdaily : 0 <= total / inject_Z (Z.max 1 (days_between e s))).
  { apply Qle_shift_div_l; lra. }
  split; [|split].
  - intros i j Hij Hj. rewrite length_map, date_seq_length in Hj.
    rewrite !nth_map_date_seq by lia.
    unfold ideal_at. fold s. rewrite !days_between_add_days.
    apply ideal_step_order; [exact Htotal | exact HD|].
    rewrite <- Zle_Qle. lia.
  - apply Forall_forall. intros x Hx. apply in_map_iff in Hx.
    destruct Hx as (d & <- & Hd). split; [apply max0_nonneg|].
    apply date_seq_In in Hd. destruct Hd as (i & _ & ->).
    unfold ideal_at. fold s. rewrite days_between_add_days.
    assert (Hi : 0 <= inject_Z (Z.of_nat i))
      by (change 0 with (inject_Z 0); rewrite <- Zle_Qle; lia).
    set (daily := total / inject_Z (Z.max 1 (days_between e s))) in *.
    set (k := inject_Z (Z.of_nat i)) in *.
    unfold Py.max0. destruct (Qle_bool (total - daily * k) 0); [exact Htotal|].
    nra.
  - intros Hle.
    assert (Hn : (0 < iterations s e)%nat).
    { unfold iterations, days_between, dt_leb, us_per_day in *.
      apply Z.leb_le in Hle. Z.div_mod_to_equations. lia. }
    rewrite nth_map_date_seq by exact Hn. unfold ideal_at. fold s.
    rewrite days_between_add_days.
    change (inject_Z (Z.of_nat 0)) with 0.
    unfold Py.max0.
    destruct (Qle_bool (total - total / inject_Z (Z.max 1 (days_between e s)) * 0) 0)
      eqn:E; [|lra].
    apply Qle_bool_iff in E. lra.
Qed.

Lemma X7_ideal_non_increasing_witness :
  exists r : Burndown,
    calculate_burndown_data 5 scenario_A (Some 10) = Done r
    /\ non_increasing (ideal r).
Proof.
  destruct (X7_ideal_non_increasing scenario_A (Some 10) 0) as (r & Hr & Hni & _).
  - vm_compute. discriminate.
  - exists r. split; [exact Hr | exact Hni].
Defined.

(** X9.  When [sprint_end] is before [sprint_start] the loop body never runs:
    the calculator returns three empty lists, with no fuel at all and without
    raising. *)
Theorem X9_reversed_sprint_is_empty (pdata : ProjectData) (planned : option Q)
        (fuel : nat) :
  dt_leb (pd_sprint_start pdata) (pd_sprint_end pdata) = false ->
  calculate_burndown_data fuel pdata planned
  = Done {| dates := []; remaining := []; ideal := [];
            bd_total_points := planned_total pdata planned |}.
Proof.
  intros Hgt.
  pose proof (calculate_burndown_data_run pdata planned fuel) as H.
  rewrite (iterations_done _ _ Hgt) in H. cbn [Nat.add] in H. rewrite H.
  unfold series_of. rewrite (iterations_done _ _ Hgt). reflexivity.
Qed.

Lemma X9_reversed_sprint_is_empty_witness :
  calculate_burndown_data 0
    {| project_name := None; items := items scenario_A; total_points := 4;
       pd_sprint_start := datetime_of 2024 1 5 0 0 0;
       pd_sprint_end := datetime_of 2024 1 1 0 0 0 |} None
  = Done {| dates := []; remaining := []; ideal := []; bd_total_points := 4 |}.
Proof.
  exact (X9_reversed_sprint_is_empty
           {| project_name := None; items := items scenario_A; total_points := 4;
              pd_sprint_start := datetime_of 2024 1 5 0 0 0;
              pd_sprint_end := datetime_of 2024 1 1 0 0 0 |} None 0 eq_refl).
Defined.

Lemma sum_points_nonneg (its : list Entry) :
  (forall i, In i its -> 0 <= story_points i) -> 0 <= sum_points its.
Proof.
  induction its as [|i its IH]; intros Hpos; cbn [sum_points]; [lra|].
  assert (0 <= story_points i) by (apply Hpos; now left).
  assert (0 <= sum_points its) by (apply IH; intros j Hj; apply Hpos; now right).
  lra.
Qed.

Lemma filter_all {A : Type} (p : A -> bool) (l : list A) :
  (forall x : A, In x l -> p x = true) -> filter p l = l.
Proof.
  induction l as [|x l IH]; intros Hp; [reflexivity|].
  cbn [filter]. rewrite (Hp x) by now left.
  f_equal. apply IH. intros y Hy. apply Hp. now right.
Qed.

Lemma filter_nothing {A : Type} (p : A -> bool) (l : list A) :
  (forall x : A, In x l -> p x = false) -> filter p l = [].
Proof.
  induction l as [|x l IH]; intros Hp; [reflexivity|].
  cbn [filter]. rewrite (Hp x) by now left.
  apply IH. intros y Hy. apply Hp. now right.
Qed.

(** An item closed by some day is closed by every later day. *)
Lemma closed_by_mono (d1 d2 : datetime) (i : Entry) :
  (date d1 <= date d2)%Z -> closed_by d1 i = true -> closed_by d2 i = true.
Proof.
  unfold closed_by. destruct (closed_at i) as [c|]; [|discriminate].
  intros Hd H. apply Z.leb_le in H. apply Z.leb_le. lia.
Qed.

Lemma done_points_nonneg (its : list Entry) (d : datetime) :
  (forall i, In i its -> 0 <= story_points i) -> 0 <= done_points its d.
Proof.
  intros Hpos. rewrite done_points_sum. apply sum_points_nonneg.
  intros i Hi. apply filter_In in Hi. apply Hpos. tauto.
Qed.

(** X10.  When no item is closed on or before the day of [sprint_end], every
    remaining value is [max(0, total)]: the actual curve is flat.  When every
    item was closed on or before the day of [sprint_start], every remaining
    value is [max(0, total - sum of the story points)]: work closed before the
    sprint is done from the first day on. *)
Theorem X10_remaining_flat (pdata : ProjectData) (planned : option Q) (extra : nat) :
  exists r : Burndown,
    calculate_burndown_data
      (iterations (pd_sprint_start pdata) (pd_sprint_end pdata) + extra)
      pdata planned = Done r
    /\ ((forall i : Entry,
            In i (items pdata) -> closed_by (pd_sprint_end pdata) i = false) ->
        Forall (fun x : Q => x == Py.max0 (planned_total pdata planned))
               (remaining r))
    /\ ((forall i : Entry,
            In i (items pdata) -> closed_by (pd_sprint_start pdata) i = true) ->
        Forall (fun x : Q =>
                  x == Py.max0 (planned_total pdata planned
                                - sum_points (items pdata)))
               (remaining r)).
Proof.
  exists (series_of pdata planned).
  split; [apply calculate_burndown_data_run|].
  unfold series_of; cbn [remaining].
  set (s := pd_sprint_start pdata). set (e := pd_sprint_end pdata).
  split.
  - intros Hopen. apply Forall_forall. intros x Hx. apply in_map_iff in Hx.
    destruct Hx as (d & <- & Hd). unfold remaining_at.
    apply max0_compat. rewrite done_points_sum.
    rewrite filter_nothing; [cbn [sum_points]; lra|].
    intros i Hi. destruct (closed_by d i) eqn:E; [|reflexivity].
    rewrite <- (Hopen i Hi). symmetry.
    apply (closed_by_mono d e i); [|exact E].
    apply date_mono. now apply (date_seq_not_after_end s e).
  - intros Hclosed. apply Forall_forall. intros x Hx. apply in_map_iff in Hx.
    destruct Hx as (d & <- & Hd). unfold remaining_at.
    apply max0_compat. rewrite done_points_sum.
    rewrite filter_all; [reflexivity|].
    intros i Hi. apply (closed_by_mono s d i); [|now apply Hclosed].
    now apply (date_seq_not_before_start s d (iterations s e)).
Qed.

Lemma X10_remaining_flat_witness :
  (exists r : Burndown,
      calculate_burndown_data 5 scenario_open None = Done r
      /\ Forall (fun x : Q => x == Py.max0 4) (remaining r))
  /\ (exists r : Burndown,
         calculate_burndown_data 5 scenario_early (Some 10) = Done r
         /\ Forall (fun x : Q => x == Py.max0 (10 - (4 + 0))) (remaining r)).
Proof.
  split.
  - destruct (X10_remaining_flat scenario_open None 0) as (r & Hr & Hflat & _).
    exists r. split; [exact Hr|]. apply Hflat.
    intros i [<-|[]]. reflexivity.
  - destruct (X10_remaining_flat scenario_early (Some 10) 0) as (r & Hr & _ & Hflat).
    exists r. split; [exact Hr|]. apply Hflat.
    intros i [<-|[]]. reflexivity.
Defined.

(** X11.  When every item has [story_points >= 0], no remaining value exceeds
    [max(0, total)]. *)
Theorem X11_remaining_bounded_by_total (pdata : ProjectData) (planned : option Q)
        (extra : nat) :
  (forall i : Entry, In i (items pdata) -> 0 <= story_points i) ->
  exists r : Burndown,
    calculate_burndown_data
      (iterations (pd_sprint_start pdata) (pd_sprint_end pdata) + extra)
      pdata planned = Done r
    /\ Forall (fun x : Q => x <= Py.max0 (planned_total pdata planned))
              (remaining r).
Proof.
  intros Hpos. exists (series_of pdata planned).
  split; [apply calculate_burndown_data_run|].
  unfold series_of; cbn [remaining].
  apply Forall_forall. intros x Hx. apply in_map_iff in Hx.
  destruct Hx as (d & <- & _). unfold remaining_at.
  apply max0_mono. pose proof (done_points_nonneg (items pdata) d Hpos). lra.
Qed.

Lemma X11_remaining_bounded_by_total_witness :
  exists r : Burndown,
    calculate_burndown_data 5 scenario_A (Some 10) = Done r
    /\ Forall (fun x : Q => x <= Py.max0 10) (remaining r).
Proof.
  apply (X11_remaining_bounded_by_total scenario_A (Some 10) 0).
  intros i [<-|[]]. vm_compute. discriminate.
Defined.

(** X12.  With [sprint_start <= sprint_end], when every item is closed on or
    before the day of the last date of the series ([sprint_start] plus the
    whole days of the sprint) and the total does not exceed the sum of the
    story points, the last remaining value is exactly 0. *)
Theorem X12_burns_down_to_zero (pdata : ProjectData) (planned : option Q)
        (extra : nat) :
  dt_leb (pd_sprint_start pdata) (pd_sprint_end pdata) = true ->
  (forall i : Entry,
      In i (items pdata) ->
      closed_by (add_days (pd_sprint_start pdata)
                          (days_between (pd_sprint_end pdata) (pd_sprint_start pdata)))
                i = true) ->
  planned_total pdata planned <= sum_points (items pdata) ->
  exists r : Burndown,
    calculate_burndown_data
      (iterations (pd_sprint_start pdata) (pd_sprint_end pdata) + extra)
      pdata planned = Done r
    /\ nth_error (remaining r) (List.length (remaining r) - 1) = Some 0.
Proof.
  intros Hle Hclosed Htotal. exists (series_of pdata planned).
  split; [apply calculate_burndown_data_run|].
  unfold series_of; cbn [remaining].
  set (s := pd_sprint_start pdata) in *. set (e := pd_sprint_end pdata) in *.
  rewrite length_map, date_seq_length.
  assert (Hn : Z.of_nat (iterations s e) = (days_between e s + 1)%Z).
  { unfold iterations, days_between, dt_leb, us_per_day in *.
    apply Z.leb_le in Hle. Z.div_mod_to_equations. lia. }
  assert (Hdb : (0 <= days_between e s)%Z).
  { unfold days_between, dt_leb, us_per_day in *.
    apply Z.leb_le in Hle. Z.div_mod_to_equations. lia. }
  rewrite nth_error_map, date_seq_nth_error by lia. cbn [option_map].
  f_equal. unfold remaining_at. apply max0_nonpos.
  replace (Z.of_nat (iterations s e - 1)) with (days_between e s) by lia.
  rewrite done_points_sum, filter_all by exact Hclosed. lra.
Qed.

Lemma X12_burns_down_to_zero_witness :
  exists r : Burndown,
    calculate_burndown_data 5 scenario_A None = Done r
    /\ nth_error (remaining r) (List.length (remaining r) - 1) = Some 0.
Proof.
  apply (X12_burns_down_to_zero scenario_A None 0).
  - reflexivity.
  - intros i [<-|[]]. reflexivity.
  - vm_compute. discriminate.
Defined.

(** ** The driver, end to end *)

Section Driver.

Variable float_of_text : string -> option Q.
Variable fromisoformat : string -> option datetime.

Lemma run_found (fuel : nat) (ok : bool) (cfg : Config) (raw : option Response)
      (s e : datetime) (proj : Project) :
  fromisoformat (sprint_start cfg) = Some s ->
  fromisoformat (sprint_end cfg) = Some e ->
  selected_project cfg raw = Some proj ->
  exists pdata : ProjectData,
    process_project_data float_of_text fromisoformat cfg raw s e = Done (Some pdata)
    /\ pd_sprint_start pdata = s /\ pd_sprint_end pdata = e
    /\ run float_of_text fromisoformat fuel ok cfg raw
       = (b <- calculate_burndown_data fuel pdata (planned_points cfg);;
          Done {| project := pdata; burndown := b;
                  events := chart_events ok cfg b (project_name pdata) |})%exc.
Proof.
  intros Hs He Hsel.
  pose proof (process_project_data_selected float_of_text fromisoformat cfg raw s e)
    as H.
  rewrite Hsel in H. destruct H as (pd & Hpd & _ & Hps & Hpe & _).
  exists pd. repeat split; try assumption.
  unfold run. rewrite Hs, He. cbn [or_raise bind].
  destruct raw as [resp|]; [|discriminate Hsel].
  rewrite Hpd. reflexivity.
Qed.

Lemma run_done_inv (fuel : nat) (ok : bool) (cfg : Config) (raw : option Response)
      (r : RunResult) :
  run float_of_text fromisoformat fuel ok cfg raw = Done r ->
  exists (s e : datetime) (proj : Project),
    fromisoformat (sprint_start cfg) = Some s
    /\ fromisoformat (sprint_end cfg) = Some e
    /\ selected_project cfg raw = Some proj
    /\ process_project_data float_of_text fromisoformat cfg raw s e
       = Done (Some (project r))
    /\ burndown r = series_of (project r) (planned_points cfg)
    /\ events r
       = chart_events ok cfg (burndown r) (project_name (project r)).
Proof.
  intros H.
  destruct (fromisoformat (sprint_start cfg)) as [s|] eqn:Hs;
    [|unfold run in H; rewrite Hs in H; discriminate].
  destruct (fromisoformat (sprint_end cfg)) as [e|] eqn:He;
    [|unfold run in H; rewrite Hs, He in H; discriminate].
  destruct (selected_project cfg raw) as [proj|] eqn:Hsel.
  - destruct (run_found fuel ok cfg raw s e proj Hs He Hsel)
      as (pd & Hpd & _ & _ & Hrun).
    rewrite Hrun in H.
    destruct (calculate_burndown_data fuel pd (planned_points cfg)) as [b| |] eqn:Hb;
      try discriminate.
    cbn [bind] in H. injection H as <-.
    apply calculate_burndown_data_inv in Hb.
    exists s, e, proj. cbn [project burndown events]. repeat split; assumption.
  - exfalso. unfold run in H. rewrite Hs, He in H. cbn [or_raise bind] in H.
    destruct raw as [resp|]; [|discriminate].
    pose proof (process_project_data_selected float_of_text fromisoformat cfg
                  (Some resp) s e) as Hp.
    rewrite Hsel in Hp. rewrite Hp in H. discriminate.
Qed.

(** X15.  The charts of a run that returns follow [chart_type]: "matplotlib"
    gives the matplotlib events only, "plotly" the plotly events only, "both"
    or no [chart_type] the matplotlib events followed by the plotly events,
    and any other value no event at all. *)
Theorem X15_chart_type_selects_renderers (fuel : nat) (ok : bool) (cfg : Config)
        (raw : option Response) (r : RunResult) :
  run float_of_text fromisoformat fuel ok cfg raw = Done r ->
  let mpl := create_matplotlib_chart (burndown r) (project_name (project r))
                                     (save_path cfg) in
  let ply := create_plotly_chart ok (burndown r) (project_name (project r))
                                 (save_path cfg) in
  (chart_type cfg = Some "matplotlib" -> events r = mpl)
  /\ (chart_type cfg = Some "plotly" -> events r = ply)
  /\ (chart_type cfg = None \/ chart_type cfg = Some "both" -> events r = mpl ++ ply)
  /\ (forall t : string,
         chart_type cfg = Some t ->
         t <> "matplotlib" -> t <> "plotly" -> t <> "both" ->
         events r = []).
Proof.
  intros H. apply run_done_inv in H.
  destruct H as (s & e & proj & _ & _ & _ & _ & _ & Hev).
  cbn zeta. rewrite Hev. unfold chart_events, chart_type_in.
  split; [|split; [|split]].
  - intros ->. cbn. now rewrite app_nil_r.
  - intros ->. reflexivity.
  - intros [->| ->]; reflexivity.
  - intros t -> H1 H2 H3.
    destruct (String.eqb_spec t "matplotlib"); [contradiction|].
    destruct (String.eqb_spec t "plotly"); [contradiction|].
    destruct (String.eqb_spec t "both"); [contradiction|].
    reflexivity.
Qed.

(** X16.  Every path a run gives to [plt.savefig], [fig.write_html] or
    [fig.write_image] is [save_path] or [save_path.replace(".png", ".html")],
    and when [save_path] is unset none of the three is called: the run writes
    no file. *)
Theorem X16_output_calls (fuel : nat) (ok : bool) (cfg : Config)
        (raw : option Response) (r : RunResult) :
  run float_of_text fromisoformat fuel ok cfg raw = Done r ->
  (forall p : string,
      In p (call_paths (events r)) ->
      p = Py.or_empty (save_path cfg)
      \/ p = Py.replace ".png" ".html" (Py.or_empty (save_path cfg)))
  /\ (Py.truthy (save_path cfg) = false -> call_paths (events r) = []).
Proof.
  intros H. apply run_done_inv in H.
  destruct H as (s & e & proj & _ & _ & _ & _ & _ & Hev).
  rewrite Hev. unfold chart_events, create_matplotlib_chart, create_plotly_chart.
  destruct (Py.truthy (save_path cfg)), (chart_type_in cfg "matplotlib"),
    (chart_type_in cfg "plotly"), ok; cbn; split; try reflexivity;
    try discriminate; intros p Hp; tauto || (intuition congruence).
Qed.

(** X17.  A failing image export never aborts a run: it returns the same
    snapshot and series as with a successful export, and its events are the
    same with the image written by plotly left out; the HTML document is
    written all the same. *)
Theorem X17_image_export_failure_is_recovered (fuel : nat) (cfg : Config)
        (raw : option Response) (r : RunResult) :
  run float_of_text fromisoformat fuel true cfg raw = Done r ->
  run float_of_text fromisoformat fuel false cfg raw
  = Done {| project := project r; burndown := burndown r;
            events := filter (fun ev => negb (is_write_image ev)) (events r) |}.
Proof.
  intros H. pose proof (run_done_inv _ _ _ _ _ H) as Hinv.
  destruct Hinv as (s & e & proj & Hs & He & Hsel & Hpd & Hb & Hev).
  destruct (run_found fuel true cfg raw s e proj Hs He Hsel)
    as (pd & Hpd' & _ & _ & Hrun).
  destruct (run_found fuel false cfg raw s e proj Hs He Hsel)
    as (pd2 & Hpd2 & _ & _ & Hrun2).
  rewrite Hpd in Hpd'. injection Hpd' as <-.
  rewrite Hpd in Hpd2. injection Hpd2 as <-.
  rewrite Hrun in H. rewrite Hrun2.
  destruct (calculate_burndown_data fuel (project r) (planned_points cfg))
    as [b| |]; try discriminate.
  cbn [bind] in H |- *. injection H as H.
  assert (Hbr : burndown r = b) by (rewrite <- H; reflexivity).
  rewrite Hev, Hbr. f_equal. f_equal.
  unfold chart_events, create_matplotlib_chart, create_plotly_chart.
  destruct (Py.truthy (save_path cfg)), (chart_type_in cfg "matplotlib"),
    (chart_type_in cfg "plotly"); reflexivity.
Qed.

End Driver.

Lemma X15_chart_type_selects_renderers_witness :
  exists r : RunResult,
    run Sample.float_plain Sample.iso_plain 5 true config_B (Some response_sample)
    = Done r
    /\ events r = [Savefig "burndown.png"; PltShow; WriteHtml "burndown.html";
                   WriteImage "burndown.png"; FigShow].
Proof.
  destruct (run Sample.float_plain Sample.iso_plain 5 true config_B
                (Some response_sample)) as [r| |] eqn:H;
    [|vm_compute in H; discriminate|vm_compute in H; discriminate].
  exists r. split; [reflexivity|].
  exact (proj1 (proj2 (proj2 (X15_chart_type_selects_renderers
                                Sample.float_plain Sample.iso_plain 5 true config_B
                                (Some response_sample) r H)))
               (or_introl eq_refl)).
Defined.

Lemma X16_output_calls_witness :
  exists r : RunResult,
    run Sample.float_plain Sample.iso_plain 5 true config_field (Some response_sample)
    = Done r
    /\ call_paths (events r) = [].
Proof.
  destruct (run Sample.float_plain Sample.iso_plain 5 true config_field
                (Some response_sample)) as [r| |] eqn:H;
    [|vm_compute in H; discriminate|vm_compute in H; discriminate].
  exists r. split; [reflexivity|].
  exact (proj2 (X16_output_calls Sample.float_plain Sample.iso_plain 5 true
                  config_field (Some response_sample) r H) eq_refl).
Defined.

Lemma X17_image_export_failure_is_recovered_witness :
  exists r : RunResult,
    run Sample.float_plain Sample.iso_plain 5 false config_B (Some response_sample)
    = Done r
    /\ events r = [Savefig "burndown.png"; PltShow; WriteHtml "burndown.html";
                   FigShow].
Proof.
  destruct (run Sample.float_plain Sample.iso_plain 5 true config_B
                (Some response_sample)) as [r| |] eqn:H;
    [|vm_compute in H; discriminate|vm_compute in H; discriminate].
  pose proof (X17_image_export_failure_is_recovered
                Sample.float_plain Sample.iso_plain 5 config_B
                (Some response_sample) r H) as Hf.
  eexists. split; [exact Hf|].
  cbn [events].
  pose proof (proj1 (proj2 (proj2 (X15_chart_type_selects_renderers
                                Sample.float_plain Sample.iso_plain 5 true config_B
                                (Some response_sample) r H)))
               (or_introl eq_refl)) as Hev.
  rewrite Hev. reflexivity.
Defined.

(** ** The response of the GraphQL endpoint *)

(** X18.  [get_project_data] hands the decoded body on exactly when the
    status is 200, the body decodes and it has no [errors] key; a decoded
    body with another status or with an [errors] key gives [None]. *)
Theorem X18_fetch_returns_clean_data_only (resp : HttpResponse) :
  (forall d : Response,
      get_project_data resp = inr (Some d) <->
      status_code resp = 200%Z
      /\ exists b : JsonBody,
          json_body resp = Some b /\ errors_key b = false /\ body b = d)
  /\ (get_project_data resp = inr None <->
      exists b : JsonBody,
        json_body resp = Some b
        /\ (status_code resp <> 200%Z \/ errors_key b = true)).
Proof.
  unfold get_project_data, raise_for_status.
  destruct resp as [st [b|]]; cbn [status_code json_body].
  - destruct (Z.eqb_spec st 200) as [->|Hne]; cbn [negb].
    + split.
      * intros d. split.
        -- destruct (errors_key b) eqn:E; [discriminate|].
           intros H. injection H as <-. split; [reflexivity|].
           exists b. repeat split; assumption.
        -- intros (_ & b' & Hb & He & <-). injection Hb as <-. now rewrite He.
      * split.
        -- destruct (errors_key b) eqn:E; [|discriminate].
           intros _. exists b. split; [reflexivity | now right].
        -- intros (b' & Hb & [H|H]); [contradiction|].
           injection Hb as <-. now rewrite H.
    + split.
      * intros d. split; [discriminate | intros [H _]; contradiction].
      * split; [|reflexivity].
        intros _. exists b. split; [reflexivity | now left].
  - split.
    + intros d. split.
      * destruct ((400 <=? st)%Z && (st <? 600)%Z); [discriminate|].
        destruct (negb (st =? 200)%Z); discriminate.
      * intros (_ & b & Hb & _). discriminate.
    + split.
      * destruct ((400 <=? st)%Z && (st <? 600)%Z); [discriminate|].
        destruct (negb (st =? 200)%Z); discriminate.
      * intros (b & Hb & _). discriminate.
Qed.

(** X19.  When the body does not decode, [get_project_data] never returns:
    it raises [HTTPError] for a 4xx or 5xx status and [UnboundLocalError] for
    every other status, 200 included. *)
Theorem X19_undecodable_body_raises (resp : HttpResponse) :
  json_body resp = None ->
  get_project_data resp
  = if ((400 <=? status_code resp) && (status_code resp <? 600))%Z
    then inl (HTTPError (status_code resp))
    else inl UnboundLocalError.
Proof.
  intros H. unfold get_project_data, raise_for_status. rewrite H.
  destruct ((400 <=? status_code resp)%Z && (status_code resp <? 600)%Z);
    [reflexivity|].
  destruct (negb (status_code resp =? 200)%Z); reflexivity.
Qed.

Lemma X19_undecodable_body_raises_witness :
  get_project_data {| status_code := 200; json_body := None |} = inl UnboundLocalError
  /\ get_project_data {| status_code := 502; json_body := None |}
     = inl (HTTPError 502).
Proof.
  split.
  - exact (X19_undecodable_body_raises {| status_code := 200; json_body := None |}
                                       eq_refl).
  - exact (X19_undecodable_body_raises {| status_code := 502; json_body := None |}
                                       eq_refl).
Defined.

Lemma X18_fetch_returns_clean_data_only_witness :
  get_project_data
    {| status_code := 200;
       json_body := Some {| errors_key := false; body := response_sample |} |}
  = inr (Some response_sample)
  /\ get_project_data
       {| status_code := 200;
          json_body := Some {| errors_key := true; body := response_sample |} |}
     = inr None.
Proof.
  split.
  - apply (proj1 (X18_fetch_returns_clean_data_only
                    {| status_code := 200;
                       json_body := Some {| errors_key := false;
                                            body := response_sample |} |})
                 response_sample).
    split; [reflexivity|]. eexists. repeat split; reflexivity.
  - apply (proj2 (X18_fetch_returns_clean_data_only
                    {| status_code := 200;
                       json_body := Some {| errors_key := true;
                                            body := response_sample |} |})).
    eexists. split; [reflexivity | right; reflexivity].
Defined.
